(** * Zeus forecast dashboard: the conversion and reporting logic of
    [streamlit_app.py], embedded in Rocq.

    Python values are modelled as a small dynamically typed universe
    ([pyval]): what [json] decoding yields, i.e. [None], booleans, numbers,
    strings, lists and dictionaries (association lists, looked up by key).
    Python [int]s are unbounded integers ([Z]).  Python [float]s are
    idealised as real numbers ([R]): rounding, overflow, infinities and NaN
    are outside the model, and so is the [OverflowError] of a float power
    or of the conversion of an [int] beyond the range of floats.  Exceptions are explicit ([result]); calls into
    Streamlit are recorded, in order, as [ui_event]s.  What the script takes
    from its surroundings (the server's replies, the clock, the zone of the
    machine, the printing of dates and floats, the drawing of charts) is a
    [platform]. *)

From Stdlib Require Import Reals.Reals Reals.Zfloor Reals.Machin.
From Stdlib Require Import ZArith List String Ascii Bool Lra Lia.
From Stdlib Require Import DecimalString.
Import ListNotations.

Set Warnings "-register-all".

Open Scope string_scope.
Open Scope Z_scope.
Open Scope R_scope.

(** ** Exceptions *)

Inductive exn : Type :=
| TypeError
| KeyError
| IndexError
| AttributeError
| ValueError.

Inductive result (A : Type) : Type :=
| Ok (a : A)
| Raise (e : exn).

Arguments Ok {A} a.
Arguments Raise {A} e.

Definition rbind {A B : Type} (r : result A) (k : A -> result B) : result B :=
  match r with
  | Ok a => k a
  | Raise e => Raise e
  end.

Declare Scope result_scope.
Delimit Scope result_scope with result.
Notation "'let?' x ':=' r 'in' k" := (rbind r (fun x => k))
  (at level 10, x pattern, r at level 100, k at level 200) : result_scope.
Open Scope result_scope.

(** ** Python values *)

(** The numeric tower the program meets: [int] and [float]. *)
Inductive number : Type :=
| Int (n : Z)
| Float (x : R).

Inductive pyval : Type :=
| PyNone
| PyBool (b : bool)
| PyNum (a : number)
| PyStr (s : string)
| PyList (l : list pyval)
| PyDict (d : list (string * pyval)).

(** [float(a)]. *)
Definition to_R (a : number) : R :=
  match a with
  | Int n => IZR n
  | Float x => x
  end.

(** The number a value stands for in arithmetic; [bool] is a subclass of
    [int].  Any other operand makes the arithmetic operators of this program
    ([**], [-], [/]) and the [math] functions raise [TypeError]. *)
Definition as_number (v : pyval) : result number :=
  match v with
  | PyNum a => Ok a
  | PyBool b => Ok (Int (if b then 1 else 0)%Z)
  | _ => Raise TypeError
  end.

(** [a ** 2] on numbers. *)
Definition num_sqr (a : number) : number :=
  match a with
  | Int n => Int (n ^ 2)%Z
  | Float x => Float (x ^ 2)
  end.

(** [a + b] on numbers. *)
Definition num_add (a b : number) : number :=
  match a, b with
  | Int m, Int n => Int (m + n)%Z
  | _, _ => Float (to_R a + to_R b)
  end.

(** [a * k] on numbers, [k] an [int] literal. *)
Definition num_mul_int (a : number) (k : Z) : number :=
  match a with
  | Int n => Int (n * k)%Z
  | Float x => Float (x * IZR k)
  end.

(** [v ** 2]. *)
Definition py_sqr (v : pyval) : result number :=
  let? a := as_number v in Ok (num_sqr a).

(** ** The [math] module and the builtins on floats *)

(** [math.sqrt]: a negative argument is a domain error. *)
Definition math_sqrt (a : number) : result R :=
  if Rlt_dec (to_R a) 0 then Raise ValueError else Ok (sqrt (to_R a)).

(** The two-argument arc tangent of [y / x], in radians, in (-PI, PI],
    the quadrant chosen by the signs of both arguments. *)
Definition atan2 (y x : R) : R :=
  if Rlt_dec 0 x then atan (y / x)
  else if Rlt_dec x 0 then
    if Rle_dec 0 y then atan (y / x) + PI else atan (y / x) - PI
  else
    if Rlt_dec 0 y then PI / 2
    else if Rlt_dec y 0 then - (PI / 2)
    else 0.

(** [math.atan2(u, v)]: both arguments must be real numbers. *)
Definition math_atan2 (u v : pyval) : result R :=
  let? a := as_number u in
  let? b := as_number v in
  Ok (atan2 (to_R a) (to_R b)).

(** [math.degrees]. *)
Definition math_degrees (x : R) : R := x * (180 / PI).

(** [math.radians]. *)
Definition math_radians (x : R) : R := x * (PI / 180).

(** [x % m] on floats, [m] positive: the result has the sign of [m]. *)
Definition float_mod (x m : R) : R := x - m * IZR (Zfloor (x / m)).

(** [round(x)] on a float: the nearest integer, a tie going to the even
    neighbour. *)
Definition py_round (x : R) : Z :=
  let f := Zfloor x in
  if Rlt_dec (x - IZR f) (1 / 2) then f
  else if Rlt_dec (1 / 2) (x - IZR f) then (f + 1)%Z
  else if Z.even f then f else (f + 1)%Z.

(** [l[i]] on a list: a negative index counts from the end, an index out of
    range raises [IndexError]. *)
Definition list_index {A : Type} (l : list A) (i : Z) : result A :=
  let n := Z.of_nat (List.length l) in
  let j := if (i <? 0)%Z then (i + n)%Z else i in
  if ((0 <=? j) && (j <? n))%Z%bool then
    match nth_error l (Z.to_nat j) with
    | Some a => Ok a
    | None => Raise IndexError
    end
  else Raise IndexError.

(** ** The wind conversions (lines 32-42) *)

Definition wind_speed_direction (u v : pyval) : result (R * R) :=
  let? u2 := py_sqr u in
  let? v2 := py_sqr v in
  let? speed_ms := math_sqrt (num_add u2 v2) in
  let speed_knots := speed_ms * 1.94384 in
  let? a := math_atan2 u v in
  let direction_deg := float_mod (math_degrees a + 180) 360 in
  Ok (speed_knots, direction_deg).

Definition dirs : list string :=
  ["N"; "NNE"; "NE"; "ENE"; "E"; "ESE"; "SE"; "SSE";
   "S"; "SSW"; "SW"; "WSW"; "W"; "WNW"; "NW"; "NNW"].

Definition deg_to_compass (deg : pyval) : result string :=
  let? d := as_number deg in
  let ix := (py_round (to_R d / 22.5) mod 16)%Z in
  list_index dirs ix.

(** ** Python operations on decoded JSON *)

(** Truth value of an object, as [if], [not], [and] and [or] test it. *)
Definition py_truthy (v : pyval) : bool :=
  match v with
  | PyNone => false
  | PyBool b => b
  | PyNum (Int n) => negb (n =? 0)%Z
  | PyNum (Float x) => if Req_dec_T x 0 then false else true
  | PyStr s => negb (s =? "")%string
  | PyList l => match l with [] => false | _ :: _ => true end
  | PyDict d => match d with [] => false | _ :: _ => true end
  end.

(** The value bound to a key in a dictionary.  A decoded JSON object has
    distinct keys. *)
Fixpoint lookup (k : string) (d : list (string * pyval)) : option pyval :=
  match d with
  | [] => None
  | (k', v) :: d' => if (k =? k')%string then Some v else lookup k d'
  end.

(** [v[k]] with a string key: only a dictionary can be subscripted by a
    string, and a key that is absent raises [KeyError]. *)
Definition py_getitem (v : pyval) (k : string) : result pyval :=
  match v with
  | PyDict d => match lookup k d with
                | Some x => Ok x
                | None => Raise KeyError
                end
  | _ => Raise TypeError
  end.

(** [v.get(k, default)]: a method of dictionaries only. *)
Definition py_get (v : pyval) (k : string) (default : pyval) : result pyval :=
  match v with
  | PyDict d => match lookup k d with
                | Some x => Ok x
                | None => Ok default
                end
  | _ => Raise AttributeError
  end.

Fixpoint chars (s : string) : list pyval :=
  match s with
  | EmptyString => []
  | String c s' => PyStr (String c EmptyString) :: chars s'
  end.

(** The elements [for x in v] visits: those of a list, the keys of a
    dictionary, the characters of a string; nothing else is iterable. *)
Definition py_iter (v : pyval) : result (list pyval) :=
  match v with
  | PyList l => Ok l
  | PyDict d => Ok (map (fun kv => PyStr (fst kv)) d)
  | PyStr s => Ok (chars s)
  | _ => Raise TypeError
  end.

(** [v[i]] with an [int] index. *)
Definition py_index (v : pyval) (i : Z) : result pyval :=
  match v with
  | PyList l => list_index l i
  | PyStr s => list_index (chars s) i
  | PyDict _ => Raise KeyError
  | _ => Raise TypeError
  end.

(** [v - c], [c] a [float] literal. *)
Definition py_sub_float (v : pyval) (c : R) : result pyval :=
  let? a := as_number v in Ok (PyNum (Float (to_R a - c))).

(** [v * k], [k] a non-negative [int] literal: a product on numbers, a
    repetition on strings and lists. *)
Definition py_mul_int (v : pyval) (k : Z) : result pyval :=
  match v with
  | PyNum a => Ok (PyNum (num_mul_int a k))
  | PyBool b => Ok (PyNum (Int ((if b then 1 else 0) * k)%Z))
  | PyStr s => Ok (PyStr (String.concat "" (repeat s (Z.to_nat k))))
  | PyList l => Ok (PyList (List.concat (repeat l (Z.to_nat k))))
  | _ => Raise TypeError
  end.

(** A list comprehension [[f(x) for x in xs]]: the elements in order, the
    first exception ending it. *)
Fixpoint comprehension {A B : Type} (f : A -> result B) (xs : list A)
  : result (list B) :=
  match xs with
  | [] => Ok []
  | x :: xs' =>
      let? y := f x in
      let? ys := comprehension f xs' in
      Ok (y :: ys)
  end.

(** [zip(a, b)] of two iterables. *)
Definition py_zip (a b : pyval) : result (list (pyval * pyval)) :=
  let? xs := py_iter a in
  let? ys := py_iter b in
  Ok (combine xs ys).

(** Decimal spelling of an [int], as [str] and f-strings print it. *)
Definition str_int (n : Z) : string := NilZero.string_of_int (Z.to_int n).

(** ** The unit conversions of the temperature and precipitation tabs *)

(** Line 134: [[t - 273.15 if t is not None else None for t in temps_raw]]. *)
Definition kelvin_to_celsius (t : pyval) : result pyval :=
  match t with
  | PyNone => Ok PyNone
  | _ => py_sub_float t 273.15
  end.

Definition temps_c_of (temps_raw : pyval) : result pyval :=
  let? ts := py_iter temps_raw in
  let? cs := comprehension kelvin_to_celsius ts in
  Ok (PyList cs).

(** Line 157: [[v * 1000 if v is not None else None for v in vals_raw]]. *)
Definition metres_to_mm (v : pyval) : result pyval :=
  match v with
  | PyNone => Ok PyNone
  | _ => py_mul_int v 1000
  end.

Definition vals_mm_of (vals_raw : pyval) : result pyval :=
  let? vs := py_iter vals_raw in
  let? ms := comprehension metres_to_mm vs in
  Ok (PyList ms).

(** ** The [datetime] library, to the second

    A [datetime] is a reading of a calendar clock, counted in seconds from
    1970-01-01T00:00:00 on that same clock, with the offset from UTC of the
    zone the reading was taken in ([tzinfo], in seconds east of UTC), or no
    zone at all (a naive datetime).  Fractions of a second are dropped: no
    format of this program prints them. *)

Record datetime : Type := mkdt { wall : Z; tzinfo : option Z }.

(** The instant an aware datetime names, in seconds since the epoch; a
    naive reading names none by itself. *)
Definition utc_instant (dt : datetime) : option Z :=
  match tzinfo dt with
  | Some off => Some (wall dt - off)%Z
  | None => None
  end.

(** Days from 1970-01-01 to a date of the proleptic Gregorian calendar. *)
Definition days_from_civil (y m d : Z) : Z :=
  let y' := if (m <=? 2)%Z then (y - 1)%Z else y in
  let era := (y' / 400)%Z in
  let yoe := (y' - era * 400)%Z in
  let mp := ((m + 9) mod 12)%Z in
  let doy := ((153 * mp + 2) / 5 + d - 1)%Z in
  let doe := (yoe * 365 + yoe / 4 - yoe / 100 + doy)%Z in
  (era * 146097 + doe - 719468)%Z.

Definition is_leap (y : Z) : bool :=
  (((y mod 4 =? 0) && negb (y mod 100 =? 0)) || (y mod 400 =? 0))%Z%bool.

Definition days_in_month (y m : Z) : Z :=
  if (m =? 2)%Z then (if is_leap y then 29 else 28)%Z
  else if ((m =? 4) || (m =? 6) || (m =? 9) || (m =? 11))%Z%bool then 30%Z
  else 31%Z.

Definition obind {A B : Type} (o : option A) (k : A -> option B) : option B :=
  match o with
  | Some a => k a
  | None => None
  end.

Notation "'let!' x ':=' o 'in' k" := (obind o (fun x => k))
  (at level 10, x pattern, o at level 100, k at level 200) : result_scope.

Definition digit_of (c : ascii) : option Z :=
  let n := Z.of_nat (nat_of_ascii c) in
  if ((48 <=? n) && (n <=? 57))%Z%bool then Some (n - 48)%Z else None.

(** Exactly [k] decimal digits. *)
Fixpoint read_digits (k : nat) (acc : Z) (l : list ascii)
  : option (Z * list ascii) :=
  match k with
  | O => Some (acc, l)
  | S k' =>
      match l with
      | c :: l' =>
          let! d := digit_of c in read_digits k' (10 * acc + d)%Z l'
      | [] => None
      end
  end.

Definition expect (c : ascii) (l : list ascii) : option (list ascii) :=
  match l with
  | c' :: l' => if Ascii.eqb c c' then Some l' else None
  | [] => None
  end.

(** [YYYY-MM-DD], a date that exists. *)
Definition read_date (l : list ascii) : option (Z * list ascii) :=
  let! (y, l) := read_digits 4 0%Z l in
  let! l := expect "-" l in
  let! (m, l) := read_digits 2 0%Z l in
  let! l := expect "-" l in
  let! (d, l) := read_digits 2 0%Z l in
  if ((1 <=? y) && (1 <=? m) && (m <=? 12) && (1 <=? d)
      && (d <=? days_in_month y m))%Z%bool
  then Some (days_from_civil y m d, l)
  else None.

(** [HH[:MM[:SS]]], as a number of seconds with its three fields. *)
Definition read_hms (l : list ascii) : option (Z * Z * Z * list ascii) :=
  let! (h, l1) := read_digits 2 0%Z l in
  match l1 with
  | ":"%char :: l2 =>
      let! (m, l3) := read_digits 2 0%Z l2 in
      match l3 with
      | ":"%char :: l4 =>
          let! (s, l5) := read_digits 2 0%Z l4 in Some (h, m, s, l5)
      | _ => Some (h, m, 0%Z, l3)
      end
  | _ => Some (h, 0%Z, 0%Z, l1)
  end.

(** An optional fraction of a second, of three or six digits. *)
Definition skip_fraction (l : list ascii) : option (list ascii) :=
  match l with
  | "."%char :: l' =>
      match read_digits 6 0%Z l' with
      | Some (_, l'') => Some l''
      | None => let! (_, l'') := read_digits 3 0%Z l' in Some l''
      end
  | _ => Some l
  end.

(** The time of day, [HH[:MM[:SS[.fff[fff]]]]]. *)
Definition read_time (l : list ascii) : option (Z * list ascii) :=
  let! (h, m, s, l) := read_hms l in
  let! l := skip_fraction l in
  if ((h <=? 23) && (m <=? 59) && (s <=? 59))%Z%bool
  then Some (h * 3600 + m * 60 + s, l)%Z
  else None.

(** The zone suffix: none, or [+HH:MM[:SS]] or [-HH:MM[:SS]], less than a
    day. *)
Definition read_zone (l : list ascii) : option (option Z) :=
  match l with
  | [] => Some None
  | c :: l' =>
      let! sign :=
        (if Ascii.eqb c "+" then Some 1%Z
         else if Ascii.eqb c "-" then Some (-1)%Z else None) in
      let! (h, l1) := read_digits 2 0%Z l' in
      let! l2 := expect ":" l1 in
      let! (m, s, rest) :=
        (let! (m, l3) := read_digits 2 0%Z l2 in
         match l3 with
         | ":"%char :: l4 =>
             let! (s, l5) := read_digits 2 0%Z l4 in Some (m, s, l5)
         | _ => Some (m, 0%Z, l3)
         end) in
      match rest with
      | [] =>
          let off := (h * 3600 + m * 60 + s)%Z in
          if (off <? 86400)%Z then Some (Some (sign * off)%Z) else None
      | _ :: _ => None
      end
  end.

(** The spellings every [datetime.fromisoformat] of Python 3.7 to 3.10
    reads: [YYYY-MM-DD], then optionally any one separator character and a
    time of day, then optionally a zone offset.  Without an offset the
    result is naive.  A trailing [Z] is not among them.  Later versions
    of Python read more spellings: that this grammar rejects a string says
    nothing about them, and no property below rests on a rejection. *)
Definition parse_iso (l : list ascii) : option datetime :=
  let! (days, l) := read_date l in
  match l with
  | [] => Some (mkdt (days * 86400) None)
  | _ :: l' =>
      let! (secs, l'') := read_time l' in
      let! tz := read_zone l'' in
      Some (mkdt (days * 86400 + secs) tz)
  end.

(** [datetime.fromisoformat(v)]: the argument must be a [str], and a string
    that is not a timestamp raises [ValueError]. *)
Definition fromisoformat (v : pyval) : result datetime :=
  match v with
  | PyStr s =>
      match parse_iso (list_ascii_of_string s) with
      | Some dt => Ok dt
      | None => Raise ValueError
      end
  | _ => Raise TypeError
  end.

(** [dt.astimezone()] on a machine whose zone is [local] seconds east of
    UTC: an aware datetime is converted to the local zone; a naive one is
    presumed to be a local reading already, and only gets the zone
    attached.  The zone is one fixed offset: changes of the offset in the
    course of a year, and the dates too early or too late for the platform
    to convert, are outside the model. *)
Definition astimezone (local : Z) (dt : datetime) : datetime :=
  match tzinfo dt with
  | Some off => mkdt (wall dt - off + local) (Some local)
  | None => mkdt (wall dt) (Some local)
  end.

(** [dt + timedelta(hours=h)]. *)
Definition add_hours (dt : datetime) (h : Z) : datetime :=
  mkdt (wall dt + 3600 * h) (tzinfo dt).

Fixpoint remove_char (c : ascii) (s : string) : string :=
  match s with
  | EmptyString => EmptyString
  | String c' s' =>
      if Ascii.eqb c c' then remove_char c s' else String c' (remove_char c s')
  end.

(** [v.replace("Z", "")]: a method of strings only. *)
Definition py_replace_Z (v : pyval) : result pyval :=
  match v with
  | PyStr s => Ok (PyStr (remove_char "Z" s))
  | _ => Raise AttributeError
  end.

(** ** Streamlit, matplotlib and the network *)

Inductive figure : Type :=
| line_chart (x y : pyval) (ylabel color : string)
| polar_arrow (theta : R) (title : string).

(** What a run shows to the user, in order. *)
Inductive ui_event : Type :=
| st_subheader (s : string)
| st_write (s : string)
| st_info (s : string)
| st_warning (s : string)
| st_error (s : string)
| st_success (s : string)
| st_pyplot (fig : figure).

(** A piece of the script: what it has shown, and its value or the exception
    that ended it. *)
Definition ui (A : Type) : Type := (list ui_event * result A)%type.

Definition ret {A : Type} (a : A) : ui A := ([], Ok a).

Definition bind {A B : Type} (m : ui A) (k : A -> ui B) : ui B :=
  match m with
  | (shown, Ok a) => let (shown', r) := k a in ((shown ++ shown')%list, r)
  | (shown, Raise e) => (shown, Raise e)
  end.

Definition emit (ev : ui_event) : ui unit := ([ev], Ok tt).

Definition lift {A : Type} (r : result A) : ui A := ([], r).

Declare Scope ui_scope.
Delimit Scope ui_scope with ui.
Notation "x <- m ;; k" := (bind m (fun x => k))
  (at level 61, m at next level, right associativity) : ui_scope.
Notation "' p <- m ;; k" := (bind m (fun p => k))
  (at level 61, p pattern, m at next level, right associativity) : ui_scope.
Notation "m ;; k" := (bind m (fun _ => k))
  (at level 61, right associativity) : ui_scope.
Open Scope ui_scope.

Definition shown {A : Type} (m : ui A) : list ui_event := fst m.
Definition outcome {A : Type} (m : ui A) : result A := snd m.

Definition is_chart (ev : ui_event) : bool :=
  match ev with
  | st_pyplot _ => true
  | _ => false
  end.

Record forecast_query : Type := {
  latitude : R;
  longitude : R;
  hourly : string;
  start_datetime : string;
  end_datetime : string }.

Record response : Type := {
  status_code : Z;
  text : string;
  json : result pyval }.

(** What the program takes from its surroundings: the server's answers, the
    clock, the zone of the machine, and the library routines that print
    dates and floats and draw charts. *)
Record platform : Type := {
  requests_get : string -> string -> option forecast_query -> response;
  utcnow : datetime;
  local_zone : Z;
  strftime : datetime -> string -> string;
  ax_plot : pyval -> pyval -> result unit;
  format_f : nat -> R -> string;
  py_repr : pyval -> string }.

(** The sidebar's inputs. *)
Record sidebar : Type := {
  api_key : string;
  lat : R;
  lon : R;
  hours : Z }.

Definition nl : string := String (ascii_of_nat 10) EmptyString.

(** The functions of the script and the bodies of its tabs, each tab on its
    own, on a platform [P] and for the inputs [S] that the widgets of lines
    65-78 have produced (a tab runs only with an API key entered). *)
Section App.

Variable P : platform.
Variable S : sidebar.

(** [str(v)], as an f-string prints a value without a format. *)
Definition py_str (v : pyval) : string :=
  match v with
  | PyStr s => s
  | PyNone => "None"
  | PyBool true => "True"
  | PyBool false => "False"
  | PyNum (Int n) => str_int n
  | _ => py_repr P v
  end.

(** [f"{v:.df}"]: a fixed-point format is for numbers only. *)
Definition py_format_f (d : nat) (v : pyval) : result string :=
  match v with
  | PyStr _ => Raise ValueError
  | _ => let? a := as_number v in Ok (format_f P d (to_R a))
  end.

(** Lines 15-23: the query, a window of [hours] from the current time. *)
Definition forecast_params (lat lon : R) (variable : string) (hours : Z)
  : forecast_query :=
  let start_time := utcnow P in
  let end_time := add_hours start_time hours in
  {| latitude := lat;
     longitude := lon;
     hourly := variable;
     start_datetime := strftime P start_time "%Y-%m-%dT%H:%M:%S";
     end_datetime := strftime P end_time "%Y-%m-%dT%H:%M:%S" |}.

(** Lines 24-25: the server's answer to the query. *)
Definition forecast_reply (api_key : string) (lat lon : R)
    (variable : string) (hours : Z) : response :=
  requests_get P "https://api.zeussubnet.com/forecast" api_key
    (Some (forecast_params lat lon variable hours)).

(** Lines 14-30. *)
Definition fetch_forecast (api_key : string) (lat lon : R)
    (variable : string) (hours : Z) : ui pyval :=
  let r := forecast_reply api_key lat lon variable hours in
  if (status_code r =? 200)%Z then lift (json r)
  else
    emit (st_error ("API call failed: " ++ str_int (status_code r)
                    ++ " " ++ text r)) ;;
    ret PyNone.

(** Line 50, one element:
    [datetime.fromisoformat(t).astimezone().strftime("%d-%b %H:%M")]. *)
Definition local_label (t : pyval) : result pyval :=
  let? dt := fromisoformat t in
  Ok (PyStr (strftime P (astimezone (local_zone P) dt) "%d-%b %H:%M")).

(** Lines 44-59. *)
Definition plot_time_series (times values : pyval) (ylabel color : string)
  : ui (pyval * pyval) :=
  if (negb (py_truthy times) || negb (py_truthy values))%bool then
    emit (st_warning "No data available to plot.") ;;
    ret (PyList [], PyList [])
  else
    ts <- lift (py_iter times) ;;
    local_times <- lift (comprehension local_label ts) ;;
    lift (ax_plot P (PyList local_times) values) ;;
    emit (st_pyplot (line_chart (PyList local_times) values ylabel color)) ;;
    ret (PyList local_times, values).

(** Lines 128-138. *)
Definition tab_temperature : ui unit :=
  emit (st_subheader "Temperature Forecast") ;;
  data <- fetch_forecast (api_key S) (lat S) (lon S) "2m_temperature" (hours S) ;;
  if py_truthy data then
    h <- lift (py_getitem data "hourly") ;;
    times <- lift (py_get h "time" (PyList [])) ;;
    h <- lift (py_getitem data "hourly") ;;
    temps_raw <- lift (py_get h "2m_temperature" (PyList [])) ;;
    temps_c <- lift (temps_c_of temps_raw) ;;
    ' (local_times, vals) <-
      plot_time_series times temps_c "Temperature (°C)" "red" ;;
    emit (st_info "ℹ️ Temperature is at **2 m AGL** and displayed in **°C**.") ;;
    if py_truthy vals then
      last <- lift (py_index vals (-1)) ;;
      v <- lift (py_format_f 1 last) ;;
      at_ <- lift (py_index local_times (-1)) ;;
      emit (st_success ("Latest Forecast: " ++ v ++ " °C at " ++ py_str at_))
    else ret tt
  else ret tt.

(** Lines 140-149. *)
Definition tab_humidity : ui unit :=
  emit (st_subheader "Humidity Forecast") ;;
  data <- fetch_forecast (api_key S) (lat S) (lon S)
            "relative_humidity_2m" (hours S) ;;
  if py_truthy data then
    h <- lift (py_getitem data "hourly") ;;
    times <- lift (py_get h "time" (PyList [])) ;;
    h <- lift (py_getitem data "hourly") ;;
    hums <- lift (py_get h "relative_humidity_2m" (PyList [])) ;;
    ' (local_times, vals) <-
      plot_time_series times hums "Relative Humidity (%)" "blue" ;;
    emit (st_info "ℹ️ Humidity is at **2 m AGL** and displayed in **%**.") ;;
    if py_truthy vals then
      last <- lift (py_index vals (-1)) ;;
      v <- lift (py_format_f 0 last) ;;
      at_ <- lift (py_index local_times (-1)) ;;
      emit (st_success ("Latest Forecast: " ++ v ++ "% at " ++ py_str at_))
    else ret tt
  else ret tt.

(** Lines 151-161. *)
Definition tab_precipitation : ui unit :=
  emit (st_subheader "Precipitation Forecast") ;;
  data <- fetch_forecast (api_key S) (lat S) (lon S)
            "total_precipitation" (hours S) ;;
  if py_truthy data then
    h <- lift (py_getitem data "hourly") ;;
    times <- lift (py_get h "time" (PyList [])) ;;
    h <- lift (py_getitem data "hourly") ;;
    vals_raw <- lift (py_get h "total_precipitation" (PyList [])) ;;
    vals_mm <- lift (vals_mm_of vals_raw) ;;
    ' (local_times, vals) <-
      plot_time_series times vals_mm "Precipitation (mm)" "green" ;;
    emit (st_info "ℹ️ Precipitation is shown as **total precipitation in millimetres (mm)**.") ;;
    if py_truthy vals then
      last <- lift (py_index vals (-1)) ;;
      v <- lift (py_format_f 1 last) ;;
      at_ <- lift (py_index local_times (-1)) ;;
      emit (st_success ("Latest Forecast: " ++ v ++ " mm at " ++ py_str at_))
    else ret tt
  else ret tt.

(** Lines 174-178: the loop over [zip(u_vals, v_vals)], with the two lists it
    appends to. *)
Fixpoint wind_loop (pairs : list (pyval * pyval)) (speeds wind_dirs : list R)
  : result (list R * list R) :=
  match pairs with
  | [] => Ok (speeds, wind_dirs)
  | (uu, vv) :: rest =>
      let? (speed, d) := wind_speed_direction uu vv in
      wind_loop rest (speeds ++ [speed])%list (wind_dirs ++ [d])%list
  end.

Definition py_floats (l : list R) : pyval :=
  PyList (map (fun x => PyNum (Float x)) l).

Definition u_var : string := "100m_u_component_of_wind".
Definition v_var : string := "100m_v_component_of_wind".

(** Lines 163-194. *)
Definition tab_wind : ui unit :=
  emit (st_subheader "Wind Forecast (100 m AGL)") ;;
  u <- fetch_forecast (api_key S) (lat S) (lon S) u_var (hours S) ;;
  v <- fetch_forecast (api_key S) (lat S) (lon S) v_var (hours S) ;;
  if (py_truthy u && py_truthy v)%bool then
    h <- lift (py_getitem u "hourly") ;;
    times <- lift (py_get h "time" (PyList [])) ;;
    h <- lift (py_getitem u "hourly") ;;
    u_vals <- lift (py_get h u_var (PyList [])) ;;
    h <- lift (py_getitem v "hourly") ;;
    v_vals <- lift (py_get h v_var (PyList [])) ;;
    pairs <- lift (py_zip u_vals v_vals) ;;
    ' (speeds, wind_dirs) <- lift (wind_loop pairs [] []) ;;
    ' (local_times, vals) <-
      plot_time_series times (py_floats speeds) "Wind Speed (kt)" "purple" ;;
    emit (st_info ("ℹ️ Wind is shown at **100 m AGL**, with speeds in **knots (kt)** "
                   ++ "and directions following the **meteorological convention** (0° = North).")) ;;
    if (py_truthy vals && py_truthy (py_floats wind_dirs))%bool then
      last_dir <- lift (list_index wind_dirs (-1)) ;;
      compass_label <- lift (deg_to_compass (PyNum (Float last_dir))) ;;
      let title :=
        "Latest Wind Direction: " ++ format_f P 0 last_dir
        ++ "° (" ++ compass_label ++ ")" in
      emit (st_pyplot (polar_arrow (math_radians last_dir) title)) ;;
      last <- lift (py_index vals (-1)) ;;
      v <- lift (py_format_f 1 last) ;;
      at_ <- lift (py_index local_times (-1)) ;;
      emit (st_success ("Latest Forecast: " ++ v ++ " kt from "
                        ++ format_f P 0 last_dir ++ "° (" ++ compass_label
                        ++ ") at " ++ py_str at_))
    else ret tt
  else ret tt.

(** Lines 111-112: the reset time, as the machine's local time. *)
Definition reset_local_time (resets_at : pyval) : result datetime :=
  let? s := py_replace_Z resets_at in
  let? utc_time := fromisoformat s in
  let local_time := astimezone (local_zone P) utc_time in
  Ok local_time.

(** Lines 110-115. *)
Definition reset_string (resets_at : pyval) : result string :=
  if py_truthy resets_at then
    let? local_time := reset_local_time resets_at in
    Ok (strftime P local_time "%d-%b %H:%M %Z")
  else Ok "Unknown".

(** Lines 117-122. *)
Definition usage_message (used remaining limit : pyval) (reset_str : string)
  : string :=
  "**API Usage**" ++ nl ++ nl
  ++ "- Credits used: **" ++ py_str used ++ "**" ++ nl
  ++ "- Credits remaining: **" ++ py_str remaining ++ " / "
  ++ py_str limit ++ "**" ++ nl
  ++ "- Resets at: **" ++ reset_str ++ "**".

Definition welcome : string :=
  nl
  ++ "        This dashboard provides weather forecasts using the **Zeus API**.  " ++ nl
  ++ "        Use the sidebar to enter your API key, select a location, and adjust forecast hours." ++ nl
  ++ "        " ++ nl
  ++ "        ⚠️ **No forecast credits are used until you open one of the forecast tabs.**" ++ nl
  ++ "        ".

(** Lines 101-102: the server's answer to the usage request. *)
Definition usage_reply : response :=
  requests_get P "https://api.zeussubnet.com/api-keys/usage" (api_key S) None.

(** Lines 88-126. *)
Definition tab_overview : ui unit :=
  emit (st_subheader "Welcome to Zeus Forecast Dashboard 🌦") ;;
  emit (st_write welcome) ;;
  if negb (api_key S =? "")%string then
    let r := usage_reply in
    if (status_code r =? 200)%Z then
      usage <- lift (json r) ;;
      remaining <- lift (py_get usage "credits_remaining" (PyStr "N/A")) ;;
      limit <- lift (py_get usage "credits_limit" (PyStr "N/A")) ;;
      used <- lift (py_get usage "credits_used" (PyStr "N/A")) ;;
      resets_at <- lift (py_get usage "resets_at" PyNone) ;;
      reset_str <- lift (reset_string resets_at) ;;
      emit (st_success (usage_message used remaining limit reset_str))
    else
      emit (st_warning ("Could not fetch API usage (status "
                        ++ str_int (status_code r) ++ ")"))
  else emit (st_info "Enter your API key in the sidebar to check usage.").

End App.

(** * The specification's notions *)

(** What the specification says in its own words: [d] is [r mod m] when it
    lies in [[0, m)] and differs from [r] by a whole number of [m]. *)
Definition is_mod (r m d : R) : Prop :=
  0 <= d < m /\ exists k : Z, r = d + IZR k * m.

(** The specification's speed: the Euclidean norm, in knots. *)
Definition spec_speed_knots (u v : R) : R := sqrt (u * u + v * v) * 1.94384.

(** The specification's angle before the reduction: [atan2(u, v)] in
    degrees, plus 180. *)
Definition spec_bearing (u v : R) : R := atan2 u v * 180 / PI + 180.

(** A series as the data model has it: a number at each hour, or a null. *)
Definition of_sample (x : option number) : pyval :=
  match x with
  | Some a => PyNum a
  | None => PyNone
  end.

Definition of_series (xs : list (option number)) : pyval :=
  PyList (map of_sample xs).

(** The specification's conversions, sample by sample. *)
Definition spec_celsius (x : option number) : option number :=
  option_map (fun k => Float (to_R k - 273.15)) x.

Definition spec_millimetres (x : option number) : option number :=
  option_map (fun m => num_mul_int m 1000) x.

(** The notice line 29 shows for a reply. *)
Definition failure_notice (r : response) : ui_event :=
  st_error ("API call failed: " ++ str_int (status_code r) ++ " " ++ text r).

(** The notice line 46 shows. *)
Definition no_data_notice : ui_event := st_warning "No data available to plot.".

(** No chart among what a piece of the script has shown. *)
Definition no_chart {A : Type} (m : ui A) : Prop :=
  Forall (fun ev => is_chart ev = false) (shown m).

(** A series that is absent from the reply, or present and empty. *)
Definition no_series (var : string) (h : list (string * pyval)) : Prop :=
  lookup var h = None \/ lookup var h = Some (PyList []).



Definition field_or (d : list (string * pyval)) (k : string) (default : pyval)
  : pyval :=
  match lookup k d with
  | Some v => v
  | None => default
  end.

(** What the specification asks of the reset time: the reading of the local
    clock at the instant whose UTC reading is [utc_reading]. *)
Definition spec_reset_local_time (local utc_reading : Z) : datetime :=
  mkdt (utc_reading + local) (Some local).

(** * Machines to run the program on *)

Definition reply_ok (body : pyval) : response :=
  {| status_code := 200; text := "OK"; json := Ok body |}.

Definition reply_unavailable : response :=
  {| status_code := 503; text := "Service Unavailable";
     json := Raise ValueError |}.

(** A machine [zone] seconds east of UTC, with a server that answers by
    [serve], at midnight UTC on 2025-01-01; dates and floats are printed by
    stand-in routines, and every chart is drawn. *)
Definition machine (serve : option forecast_query -> response) (zone : Z)
  : platform :=
  {| requests_get := fun _ _ q => serve q;
     utcnow := mkdt 1735689600 None;
     local_zone := zone;
     strftime := fun dt _ => str_int (wall dt);
     ax_plot := fun _ _ => Ok tt;
     format_f := fun _ _ => "?";
     py_repr := fun _ => "?" |}.

Definition dover : sidebar :=
  {| api_key := "secret"; lat := 51.1290; lon := 1.3080; hours := 6 |}.

Definition two_hours : pyval :=
  PyList [PyStr "2025-01-01T00:00:00"; PyStr "2025-01-01T01:00:00"].

Definition forecast_body (var : string) (series : list pyval) : pyval :=
  PyDict [("hourly", PyDict [("time", two_hours); (var, PyList series)])].

(** A wind forecast whose eastward component misses its second sample. *)
Definition serve_wind_with_null (q : option forecast_query) : response :=
  match q with
  | Some q =>
      if (hourly q =? u_var)%string then
        reply_ok (forecast_body u_var [PyNum (Float 3); PyNone])
      else
        reply_ok (forecast_body v_var [PyNum (Float 4); PyNum (Float 1.5)])
  | None => reply_unavailable
  end.

Definition wind_null_machine : platform := machine serve_wind_with_null 3600.

(** A temperature forecast that misses its last sample. *)
Definition serve_temperature_with_null (q : option forecast_query) : response :=
  match q with
  | Some q => reply_ok (forecast_body (hourly q) [PyNum (Float 280); PyNone])
  | None => reply_unavailable
  end.

Definition temperature_null_machine : platform :=
  machine serve_temperature_with_null 3600.

(** A server that answers nothing. *)
Definition server_down : platform := machine (fun _ => reply_unavailable) 0.

(** A usage reply with the credits used and nothing else. *)
Definition serve_usage_partial (q : option forecast_query) : response :=
  match q with
  | None => reply_ok (PyDict [("credits_used", PyNum (Int 12))])
  | Some _ => reply_unavailable
  end.

Definition usage_partial_machine : platform := machine serve_usage_partial 3600.

(** * The script as a whole (lines 7-12 and 62-86) *)

(** Lines 8-12. *)
Definition LOCATIONS : list (string * option (R * R)) :=
  [("Dover", Some (51.1290, 1.3080));
   ("Shaftesbury", Some (51.0050, -2.1930));
   ("Custom", None)].

(** What the user has entered in the sidebar's widgets. *)
Record widgets : Type := {
  text_input : string;
  selectbox : string;
  latitude_input : R;
  longitude_input : R;
  slider : Z }.

Fixpoint assoc {A : Type} (k : string) (d : list (string * A)) : option A :=
  match d with
  | [] => None
  | (k', v) :: d' => if (k =? k')%string then Some v else assoc k d'
  end.

(** Lines 72-76: the coordinates of the location chosen, or the two number
    inputs when the table has [None] for it; subscripting the table by a
    name it does not have raises [KeyError]. *)
Definition coordinates (W : widgets) : result (R * R) :=
  match assoc (selectbox W) LOCATIONS with
  | Some (Some c) => Ok c
  | Some None => Ok (latitude_input W, longitude_input W)
  | None => Raise KeyError
  end.

(** What the widgets allow: the select box offers the names of the table,
    the slider the hours 1 to 48. *)
Definition offered (W : widgets) : Prop :=
  In (selectbox W) (map fst LOCATIONS) /\ (1 <= slider W <= 48)%Z.

(** What a run of the script puts on the page: the title, the note in the
    sidebar, and what is shown in the body of the page or under a tab. *)
Inductive page_event : Type :=
| st_title (s : string)
| st_sidebar_info (s : string)
| in_page (ev : ui_event)
| in_tab (label : string) (ev : ui_event).

(** The [with tab:] blocks, run one after the other; an exception ends the
    run. *)
Fixpoint run_tabs (tabs : list (string * ui unit))
  : list page_event * result unit :=
  match tabs with
  | [] => ([], Ok tt)
  | (label, (evs, r)) :: rest =>
      match r with
      | Ok _ =>
          let (evs', r') := run_tabs rest in
          ((map (in_tab label) evs ++ evs')%list, r')
      | Raise e => (map (in_tab label) evs, Raise e)
      end
  end.

Definition tab_labels : list string :=
  ["📋 Overview"; "🌡 Temperature"; "💧 Humidity"; "☔ Precipitation"; "🌬 Wind"].

(** The five tabs of lines 84-194, for the inputs [S]. *)
Definition tabs_of (P : platform) (S : sidebar) : list (string * ui unit) :=
  [("📋 Overview", tab_overview P S);
   ("🌡 Temperature", tab_temperature P S);
   ("💧 Humidity", tab_humidity P S);
   ("☔ Precipitation", tab_precipitation P S);
   ("🌬 Wind", tab_wind P S)].

(** Lines 62-194: one run of the script.  Without an API key it stops after
    its warning ([st.stop()]). *)
Definition script (P : platform) (W : widgets)
  : list page_event * result unit :=
  if (text_input W =? "")%string then
    ([st_title "Zeus Forecast Dashboard 🌦";
      in_page (st_warning
                 "Please enter your API key in the sidebar to load data.")],
     Ok tt)
  else
    match coordinates W with
    | Raise e => ([st_title "Zeus Forecast Dashboard 🌦"], Raise e)
    | Ok (lat, lon) =>
        let S := {| api_key := text_input W; lat := lat; lon := lon;
                    hours := slider W |} in
        let (evs, r) := run_tabs (tabs_of P S) in
        (st_title "Zeus Forecast Dashboard 🌦"
         :: st_sidebar_info "ℹ️ App starts on the **Overview tab** so no forecast credits are used until you open a forecast tab."
         :: evs, r)
    end.

Definition under_tab (label : string) (pe : page_event) : bool :=
  match pe with
  | in_tab l _ => (l =? label)%string
  | _ => false
  end.

(** * Further notions for the properties below *)

(** A value the arithmetic of the program accepts: a number or a boolean. *)
Definition is_number (v : pyval) : bool :=
  match v with
  | PyNum _ | PyBool _ => true
  | _ => false
  end.

(** A sample the conversions accept: a null, or a value arithmetic accepts. *)
Definition is_sample (v : pyval) : bool :=
  match v with
  | PyNone => true
  | _ => is_number v
  end.

(** The speed in knots and the direction that line 176 gets for one hour. *)
Definition wind_of (uv : number * number) : R * R :=
  (sqrt (to_R (fst uv) * to_R (fst uv) + to_R (snd uv) * to_R (snd uv))
   * 1.94384,
   float_mod (math_degrees (atan2 (to_R (fst uv)) (to_R (snd uv))) + 180) 360).

(** A server with the same two samples for every variable asked. *)
Definition serve_numbers (series : list pyval) (q : option forecast_query)
  : response :=
  match q with
  | Some q => reply_ok (forecast_body (hourly q) series)
  | None => reply_unavailable
  end.

Definition fair_machine : platform :=
  machine (serve_numbers [PyNum (Float 280); PyNum (Float 281.5)]) 3600.

(** A server that answers every request with status 200 and [body]. *)
Definition serve_body (body : pyval) (q : option forecast_query) : response :=
  reply_ok body.

(** A server that answers the usage request with [body]. *)
Definition serve_usage (body : pyval) (q : option forecast_query) : response :=
  match q with
  | None => reply_ok body
  | Some _ => reply_unavailable
  end.

(** What one tab has put on the page. *)
Definition tab_events (t : string * ui unit) : list page_event :=
  map (in_tab (fst t)) (shown (snd t)).



(** A number of magnitude at most [bound]; every other value passes.  Within
    such a bound the floats of Python do what the real numbers do, up to
    rounding: no power, product or conversion of an [int] overflows. *)
Definition within (bound : Z) (v : pyval) : Prop :=
  match v with
  | PyNum a => Rabs (to_R a) <= IZR bound
  | _ => True
  end.


(** * Properties *)

(** ** Arithmetic on floats *)

Lemma float_mod_bounds (x m : R) : 0 < m -> 0 <= float_mod x m < m.
Proof.
  intros Hm. unfold float_mod.
  destruct (Zfloor_bound (x / m)) as [Hlo Hhi].
  assert (Hx : x = m * (x / m)) by (field; lra).
  split.
  - apply Rmult_le_compat_l with (r := m) in Hlo; lra.
  - apply Rmult_lt_compat_l with (r := m) in Hhi; lra.
Qed.

Lemma float_mod_congruent (x m : R) :
  exists k : Z, float_mod x m = x + m * IZR k.
Proof.
  exists (- Zfloor (x / m))%Z. unfold float_mod. rewrite opp_IZR. ring.
Qed.

Lemma float_mod_small (x m : R) : 0 <= x < m -> float_mod x m = x.
Proof.
  intros [Hlo Hhi]. unfold float_mod.
  assert (Hm : 0 < m) by lra.
  rewrite (Zfloor_eq 0 (x / m)).
  - ring.
  - split.
    + apply Rmult_le_reg_r with (r := m); [lra|].
      replace (x / m * m) with x by (field; lra). lra.
    + apply Rmult_lt_reg_r with (r := m); [lra|].
      replace (x / m * m) with x by (field; lra). lra.
Qed.

Lemma float_mod_period (m : R) : 0 < m -> float_mod m m = 0.
Proof.
  intros Hm. unfold float_mod.
  replace (m / m) with (IZR 1) by (field; lra).
  rewrite ZfloorZ. ring.
Qed.

Lemma py_round_near (x : R) : Rabs (x - IZR (py_round x)) <= 1 / 2.
Proof.
  unfold py_round.
  destruct (Zfloor_bound x) as [Hlo Hhi].
  destruct (Rlt_dec (x - IZR (Zfloor x)) (1 / 2)) as [H1 | H1].
  - apply Rabs_le. lra.
  - destruct (Rlt_dec (1 / 2) (x - IZR (Zfloor x))) as [H2 | H2].
    + rewrite plus_IZR. apply Rabs_le. lra.
    + destruct (Z.even (Zfloor x)).
      * apply Rabs_le. lra.
      * rewrite plus_IZR. apply Rabs_le. lra.
Qed.

Lemma py_round_eq (x : R) (z : Z) :
  IZR z - 1 / 2 < x < IZR z + 1 / 2 -> py_round x = z.
Proof.
  intros [Hlo Hhi].
  destruct (Rlt_dec x (IZR z)) as [Hlt | Hge].
  - unfold py_round.
    rewrite (Zfloor_eq (z - 1) x) by (rewrite minus_IZR; lra).
    rewrite minus_IZR.
    destruct (Rlt_dec (x - (IZR z - 1)) (1 / 2)) as [H1 | H1]; [lra|].
    destruct (Rlt_dec (1 / 2) (x - (IZR z - 1))) as [H2 | H2]; [lia | lra].
  - unfold py_round.
    rewrite (Zfloor_eq z x) by lra.
    destruct (Rlt_dec (x - IZR z) (1 / 2)) as [H1 | H1]; [reflexivity | lra].
Qed.

Lemma list_index_in_range {A : Type} (l : list A) (i : Z) :
  (0 <= i < Z.of_nat (List.length l))%Z ->
  exists a, list_index l i = Ok a /\ nth_error l (Z.to_nat i) = Some a.
Proof.
  intros [Hlo Hhi]. unfold list_index.
  replace (i <? 0)%Z with false by (symmetry; apply Z.ltb_ge; lia).
  replace (0 <=? i)%Z with true by (symmetry; apply Z.leb_le; lia).
  replace (i <? Z.of_nat (List.length l))%Z with true
    by (symmetry; apply Z.ltb_lt; lia).
  simpl.
  destruct (nth_error l (Z.to_nat i)) as [a |] eqn:E.
  - exists a. split; reflexivity.
  - apply nth_error_None in E. lia.
Qed.

(** ** The arc tangent of two arguments *)

Lemma atan_pos (t : R) : 0 < t -> 0 < atan t.
Proof. intros H. rewrite <- atan_0. apply atan_increasing. exact H. Qed.

Lemma atan_neg (t : R) : t < 0 -> atan t < 0.
Proof. intros H. rewrite <- atan_0. apply atan_increasing. exact H. Qed.

Lemma atan2_bounds (y x : R) : - PI < atan2 y x <= PI.
Proof.
  pose proof PI_RGT_0 as Hpi.
  unfold atan2.
  destruct (Rlt_dec 0 x) as [Hx | Hx].
  - destruct (atan_bound (y / x)). lra.
  - destruct (Rlt_dec x 0) as [Hx' | Hx'].
    + destruct (atan_bound (y / x)) as [Hlo Hhi].
      destruct (Rle_dec 0 y) as [Hy | Hy].
      * assert (Ht : atan (y / x) <= 0).
        { destruct Hy as [Hy | Hy].
          - left. apply atan_neg.
            apply Ropp_lt_cancel. rewrite Ropp_0.
            replace (- (y / x)) with (y / - x) by (field; lra).
            apply Rdiv_lt_0_compat; lra.
          - subst y. replace (0 / x) with 0 by (field; lra).
            rewrite atan_0. lra. }
        lra.
      * assert (Ht : 0 < atan (y / x)).
        { apply atan_pos.
          replace (y / x) with (- y / - x) by (field; lra).
          apply Rdiv_lt_0_compat; lra. }
        lra.
    + destruct (Rlt_dec 0 y); [lra|].
      destruct (Rlt_dec y 0); lra.
Qed.

(** The defining property of the angle: it is the argument of the point
    with abscissa [x] and ordinate [y]. *)
Lemma atan2_polar (y x : R) :
  x <> 0 \/ y <> 0 ->
  sin (atan2 y x) = y / sqrt (x * x + y * y) /\
  cos (atan2 y x) = x / sqrt (x * x + y * y).
Proof.
  intros Hne.
  assert (Hpos : 0 < x * x + y * y) by (destruct Hne; nra).
  assert (Hs : 0 < sqrt (x * x + y * y)) by (apply sqrt_lt_R0; exact Hpos).
  assert (Hsq : sqrt (x * x + y * y) * sqrt (x * x + y * y) = x * x + y * y)
    by (apply sqrt_sqrt; lra).
  unfold atan2.
  destruct (Rlt_dec 0 x) as [Hx | Hx];
    [| destruct (Rlt_dec x 0) as [Hx' | Hx']].
  - assert (E : sqrt (1 + (y / x)²) = sqrt (x * x + y * y) / x).
    { apply sqrt_lem_1.
      - unfold Rsqr. nra.
      - apply Rlt_le, Rdiv_lt_0_compat; lra.
      - replace (sqrt (x * x + y * y) / x * (sqrt (x * x + y * y) / x))
          with (sqrt (x * x + y * y) * sqrt (x * x + y * y) / (x * x))
          by (field; lra).
        rewrite Hsq. unfold Rsqr. field. lra. }
    rewrite sin_atan, cos_atan, E. split; field; lra.
  - assert (E : sqrt (1 + (y / x)²) = sqrt (x * x + y * y) / - x).
    { apply sqrt_lem_1.
      - unfold Rsqr. nra.
      - apply Rlt_le, Rdiv_lt_0_compat; lra.
      - replace (sqrt (x * x + y * y) / - x * (sqrt (x * x + y * y) / - x))
          with (sqrt (x * x + y * y) * sqrt (x * x + y * y) / (x * x))
          by (field; lra).
        rewrite Hsq. unfold Rsqr. field. lra. }
    destruct (Rle_dec 0 y) as [Hy | Hy].
    + rewrite neg_sin, neg_cos, sin_atan, cos_atan, E. split; field; lra.
    + unfold Rminus. rewrite <- (Ropp_involutive (atan (y / x) + - PI)).
      rewrite sin_neg, cos_neg.
      replace (- (atan (y / x) + - PI)) with (PI - atan (y / x)) by ring.
      rewrite sin_PI_x.
      replace (PI - atan (y / x)) with (- atan (y / x) + PI) by ring.
      rewrite neg_cos, cos_neg, sin_atan, cos_atan, E. split; field; lra.
  - assert (x = 0) by lra. subst x.
    assert (Hy0 : y <> 0) by (destruct Hne; [lra | assumption]).
    replace (0 * 0 + y * y) with (y * y) in * by ring.
    destruct (Rlt_dec 0 y) as [Hy | Hy].
    + rewrite sin_PI2, cos_PI2.
      rewrite sqrt_square by lra. split; field; lra.
    + destruct (Rlt_dec y 0) as [Hy' | Hy']; [| lra].
      rewrite sin_neg, cos_neg, sin_PI2, cos_PI2.
      replace (y * y) with (- y * - y) by ring.
      rewrite sqrt_square by lra. split; field; lra.
Qed.

(** ** Wind speed and direction *)

Lemma to_R_num_sqr (a : number) : to_R (num_sqr a) = to_R a * to_R a.
Proof.
  destruct a as [n | x]; simpl.
  - rewrite <- mult_IZR. f_equal. lia.
  - ring.
Qed.

Lemma to_R_num_add (a b : number) : to_R (num_add a b) = to_R a + to_R b.
Proof.
  destruct a as [m | x], b as [n | y]; simpl; try reflexivity.
  apply plus_IZR.
Qed.

Lemma float_mod_is_mod (x m : R) : 0 < m -> is_mod x m (float_mod x m).
Proof.
  intros Hm. split.
  - apply float_mod_bounds. exact Hm.
  - exists (Zfloor (x / m)). unfold float_mod. ring.
Qed.

Lemma is_mod_unique (r m d d' : R) : is_mod r m d -> is_mod r m d' -> d = d'.
Proof.
  intros [[Hlo Hhi] [k Hk]] [[Hlo' Hhi'] [k' Hk']].
  assert (Hm : 0 < m) by lra.
  assert (E : d - d' = IZR (k' - k) * m) by (rewrite minus_IZR; lra).
  assert (Hz : (k' - k = 0)%Z).
  { assert (H1 : (-1 < k' - k)%Z).
    { apply lt_IZR. apply Rmult_lt_reg_r with (r := m); [lra|].
      rewrite <- E. lra. }
    assert (H2 : (k' - k < 1)%Z).
    { apply lt_IZR. apply Rmult_lt_reg_r with (r := m); [lra|].
      rewrite <- E. lra. }
    lia. }
  rewrite Hz in E. lra.
Qed.

Lemma wind_speed_direction_numbers (a b : number) :
  wind_speed_direction (PyNum a) (PyNum b) =
  Ok (sqrt (to_R a * to_R a + to_R b * to_R b) * 1.94384,
      float_mod (math_degrees (atan2 (to_R a) (to_R b)) + 180) 360).
Proof.
  unfold wind_speed_direction, py_sqr, math_atan2, math_sqrt. simpl.
  rewrite to_R_num_add, !to_R_num_sqr.
  destruct (Rlt_dec (to_R a * to_R a + to_R b * to_R b) 0) as [H | H].
  - exfalso. nra.
  - reflexivity.
Qed.

(** C2: on every pair of real components the function returns the speed
    sqrt(u^2 + v^2) * 1.94384 and the direction
    (atan2(u, v) in degrees + 180) mod 360. *)
Theorem wind_speed_direction_formula (u v : R) :
  exists speed direction,
    wind_speed_direction (PyNum (Float u)) (PyNum (Float v))
    = Ok (speed, direction)
    /\ speed = spec_speed_knots u v
    /\ is_mod (spec_bearing u v) 360 direction.
Proof.
  rewrite wind_speed_direction_numbers. simpl.
  eexists. eexists. split; [reflexivity|]. split.
  - reflexivity.
  - unfold spec_bearing, math_degrees.
    replace (atan2 u v * 180 / PI) with (atan2 u v * (180 / PI))
      by (field; apply PI_neq0).
    apply float_mod_is_mod. lra.
Qed.

Lemma dirs_length : List.length dirs = 16%nat.
Proof. reflexivity. Qed.

Lemma deg_to_compass_total (a : number) :
  let ix := (py_round (to_R a / 22.5) mod 16)%Z in
  (0 <= ix < 16)%Z /\
  exists label,
    deg_to_compass (PyNum a) = Ok label
    /\ nth_error dirs (Z.to_nat ix) = Some label.
Proof.
  intros ix.
  assert (Hix : (0 <= ix < 16)%Z) by (apply Z.mod_pos_bound; lia).
  split; [exact Hix|].
  destruct (list_index_in_range dirs ix) as [label [H1 H2]].
  - rewrite dirs_length. exact Hix.
  - exists label. split; [exact H1 | exact H2].
Qed.

(** C10: on real inputs the speed is non-negative and the direction lies in
    [0, 360); from such a direction [deg_to_compass] computes an index in
    [0, 16) and returns the label at that index of its list. *)
Theorem wind_results_in_range (u v : R) :
  exists speed direction label,
    wind_speed_direction (PyNum (Float u)) (PyNum (Float v))
    = Ok (speed, direction)
    /\ 0 <= speed
    /\ 0 <= direction < 360
    /\ (0 <= py_round (direction / 22.5) mod 16 < 16)%Z
    /\ deg_to_compass (PyNum (Float direction)) = Ok label
    /\ nth_error dirs (Z.to_nat (py_round (direction / 22.5) mod 16))
       = Some label
    /\ In label dirs
    /\ List.length dirs = 16%nat.
Proof.
  rewrite wind_speed_direction_numbers. cbn [to_R].
  set (d := float_mod (math_degrees (atan2 u v) + 180) 360).
  destruct (deg_to_compass_total (Float d)) as [Hix [label [H1 H2]]].
  simpl in Hix, H2.
  exists (sqrt (u * u + v * v) * 1.94384), d, label.
  split; [reflexivity|]. split.
  - apply Rmult_le_pos; [apply sqrt_pos | lra].
  - split; [apply float_mod_bounds; lra|].
    split; [exact Hix|]. split; [exact H1|]. split; [exact H2|].
    split; [exact (nth_error_In _ _ H2) | reflexivity].
Qed.

(** ** Compass labels *)

Lemma Rabs_le_between (a b : R) : Rabs a <= b -> - b <= a <= b.
Proof.
  unfold Rabs. destruct (Rcase_abs a); intros H; lra.
Qed.

Lemma deg_to_compass_at (a : number) (r : Z) :
  IZR r - 1 / 2 < to_R a / 22.5 < IZR r + 1 / 2 ->
  deg_to_compass (PyNum a) = list_index dirs (r mod 16)%Z.
Proof.
  intros H. unfold deg_to_compass. simpl.
  rewrite (py_round_eq _ r H). reflexivity.
Qed.

(** C6: the label is the entry of the sixteen-point list, which starts at
    North, at index round(degrees / 22.5) mod 16; its bearing is within half
    a step (11.25 degrees) of the input, up to whole turns; and 0, 90 and
    359 degrees give N, E and N. *)
Theorem deg_to_compass_nearest :
  (forall a : number,
      let ix := (py_round (to_R a / 22.5) mod 16)%Z in
      exists label,
        deg_to_compass (PyNum a) = Ok label
        /\ nth_error dirs (Z.to_nat ix) = Some label
        /\ exists turns : Z,
            Rabs (to_R a - (22.5 * IZR ix + 360 * IZR turns)) <= 11.25)
  /\ List.length dirs = 16%nat
  /\ nth_error dirs 0 = Some "N"
  /\ deg_to_compass (PyNum (Int 0)) = Ok "N"
  /\ deg_to_compass (PyNum (Int 90)) = Ok "E"
  /\ deg_to_compass (PyNum (Int 359)) = Ok "N".
Proof.
  split; [| split; [reflexivity | split; [reflexivity |]]].
  - intros a ix.
    destruct (deg_to_compass_total a) as [_ [label [H1 H2]]].
    exists label. split; [exact H1 | split; [exact H2 |]].
    exists (py_round (to_R a / 22.5) / 16)%Z.
    pose proof (py_round_near (to_R a / 22.5)) as Hn.
    pose proof (Z.div_mod (py_round (to_R a / 22.5)) 16) as Hd.
    assert (E : IZR (py_round (to_R a / 22.5)) =
                16 * IZR (py_round (to_R a / 22.5) / 16) + IZR ix).
    { rewrite <- mult_IZR, <- plus_IZR. f_equal. subst ix. lia. }
    apply Rabs_le. apply Rabs_le_between in Hn. lra.
  - split; [| split].
    + rewrite (deg_to_compass_at (Int 0) 0); [reflexivity | simpl; lra].
    + rewrite (deg_to_compass_at (Int 90) 4); [reflexivity | simpl; lra].
    + rewrite (deg_to_compass_at (Int 359) 16); [reflexivity | simpl; lra].
Qed.

(** ** The worked examples of the wind conversion *)

Lemma atan_alt_bounds (x : R) (N : nat) :
  0 < x < 1 ->
  sum_f_R0 (tg_alt (Ratan_seq x)) (S (2 * N)) <= atan x
  <= sum_f_R0 (tg_alt (Ratan_seq x)) (2 * N).
Proof.
  intros Hx.
  assert (H01 : 0 <= x <= 1) by lra.
  rewrite atan_eq_ps_atan by exact Hx.
  unfold ps_atan.
  destruct (Ratan.in_int x) as [Hin | Hout]; [| exfalso; apply Hout; lra].
  destruct (ps_atan_exists_1 x Hin) as [l Hl].
  apply alternated_series_ineq.
  - apply Ratan_seq_decreasing. exact H01.
  - apply Ratan_seq_converging. exact H01.
  - exact Hl.
Qed.

Lemma atan_7_bounds : 0.141897 < atan (/ 7) < 0.141898.
Proof.
  destruct (atan_alt_bounds (/ 7) 1) as [Hlo Hhi]; [lra|].
  unfold sum_f_R0, tg_alt, Ratan_seq in Hlo, Hhi. simpl in Hlo, Hhi.
  lra.
Qed.

Lemma PI_bounds : 3.1415 < PI < 3.1421.
Proof.
  destruct (PI_2_3_7_ineq 1) as [Hlo Hhi].
  unfold sum_f_R0, tg_alt, PI_2_3_7_tg, Ratan_seq in Hlo, Hhi.
  simpl in Hlo, Hhi.
  lra.
Qed.

Lemma atan_3_4 : atan (3 / 4) = PI / 4 - atan (/ 7).
Proof.
  assert (H : atan 1 = atan (/ 7) + atan (atan_sub 1 (/ 7))).
  { apply atan_sub_correct.
    - lra.
    - apply tech; lra.
    - apply atan_bound. }
  rewrite atan_1 in H.
  replace (atan_sub 1 (/ 7)) with (3 / 4) in H by (unfold atan_sub; field).
  lra.
Qed.

Lemma atan2_right (y x : R) : 0 < x -> atan2 y x = atan (y / x).
Proof.
  intros H. unfold atan2. destruct (Rlt_dec 0 x); [reflexivity | contradiction].
Qed.

Lemma atan2_up (y : R) : 0 < y -> atan2 y 0 = PI / 2.
Proof.
  intros H. unfold atan2.
  destruct (Rlt_dec 0 0); [lra|].
  destruct (Rlt_dec 0 y); [reflexivity | contradiction].
Qed.

Lemma wind_0_1 :
  wind_speed_direction (PyNum (Int 0)) (PyNum (Int 1)) = Ok (1.94384, 180).
Proof.
  rewrite wind_speed_direction_numbers. cbn [to_R].
  replace (0 * 0 + 1 * 1) with 1 by ring. rewrite sqrt_1.
  rewrite atan2_right by lra.
  replace (0 / 1) with 0 by field. rewrite atan_0.
  unfold math_degrees. rewrite float_mod_small by lra.
  f_equal. f_equal; ring.
Qed.

Lemma wind_1_0 :
  wind_speed_direction (PyNum (Int 1)) (PyNum (Int 0)) = Ok (1.94384, 270).
Proof.
  rewrite wind_speed_direction_numbers. cbn [to_R].
  replace (1 * 1 + 0 * 0) with 1 by ring. rewrite sqrt_1.
  rewrite atan2_up by lra.
  unfold math_degrees.
  replace (PI / 2 * (180 / PI) + 180) with 270 by (field; apply PI_neq0).
  rewrite float_mod_small by lra.
  f_equal. f_equal; ring.
Qed.

Lemma wind_3_4 :
  exists d,
    wind_speed_direction (PyNum (Int 3)) (PyNum (Int 4)) = Ok (9.7192, d)
    /\ d = 225 - atan (/ 7) * 180 / PI
    /\ 216.865 < d < 216.875.
Proof.
  pose proof PI_bounds as [Hp1 Hp2].
  pose proof atan_7_bounds as [Ha1 Ha2].
  assert (Hq : 8.125 < atan (/ 7) * 180 / PI < 8.135).
  { split.
    - apply Rmult_lt_reg_r with (r := PI); [lra|].
      replace (atan (/ 7) * 180 / PI * PI) with (atan (/ 7) * 180)
        by (field; lra).
      lra.
    - apply Rmult_lt_reg_r with (r := PI); [lra|].
      replace (atan (/ 7) * 180 / PI * PI) with (atan (/ 7) * 180)
        by (field; lra).
      lra. }
  exists (225 - atan (/ 7) * 180 / PI).
  split; [| split; [reflexivity | lra]].
  rewrite wind_speed_direction_numbers. cbn [to_R].
  replace (3 * 3 + 4 * 4) with (5 * 5) by ring.
  rewrite sqrt_square by lra.
  rewrite atan2_right by lra. rewrite atan_3_4.
  unfold math_degrees.
  replace ((PI / 4 - atan (/ 7)) * (180 / PI) + 180)
    with (225 - atan (/ 7) * 180 / PI) by (field; lra).
  rewrite float_mod_small by lra.
  f_equal. f_equal; lra.
Qed.

(** C1, as the code has it: on (3, 4) the speed is 5 m/s, that is
    9.7192 kt, and the direction is about 216.87 degrees; (0, 1), a wind
    blowing to the North, comes from 180 degrees, and (1, 0), a wind blowing
    to the East, comes from 270 degrees. *)
Theorem wind_speed_direction_examples :
  (exists d,
      wind_speed_direction (PyNum (Int 3)) (PyNum (Int 4)) = Ok (9.7192, d)
      /\ Rabs (d - 216.87) < 0.005)
  /\ wind_speed_direction (PyNum (Int 0)) (PyNum (Int 1)) = Ok (1.94384, 180)
  /\ wind_speed_direction (PyNum (Int 1)) (PyNum (Int 0)) = Ok (1.94384, 270).
Proof.
  split; [| split; [exact wind_0_1 | exact wind_1_0]].
  destruct wind_3_4 as [d [H [_ Hd]]].
  exists d. split; [exact H|].
  apply Rabs_def1; lra.
Qed.

(** C1, as the specification words it, fails on each of its three inputs:
    (0, 1) does not give 0 degrees, (1, 0) does not give 90 degrees, and
    (3, 4) gives neither about 8.66 kt nor about 323.13 degrees. *)
Lemma wind_speed_direction_claimed_examples_fail :
  ~ (exists s, wind_speed_direction (PyNum (Int 0)) (PyNum (Int 1))
               = Ok (s, 0))
  /\ ~ (exists s, wind_speed_direction (PyNum (Int 1)) (PyNum (Int 0))
                  = Ok (s, 90))
  /\ ~ (exists s d, wind_speed_direction (PyNum (Int 3)) (PyNum (Int 4))
                    = Ok (s, d)
                    /\ (Rabs (s - 8.66) < 1 \/ Rabs (d - 323.13) < 100)).
Proof.
  split; [| split].
  - intros [s H]. rewrite wind_0_1 in H. injection H as _ H. lra.
  - intros [s H]. rewrite wind_1_0 in H. injection H as _ H. lra.
  - intros [s [d [H Hc]]].
    destruct wind_3_4 as [d' [H' [_ Hd']]].
    rewrite H' in H. injection H as Hs Hd. subst s d.
    destruct Hc as [Hc | Hc]; apply Rabs_def2 in Hc; lra.
Qed.

(** ** Temperature and precipitation series *)

Lemma kelvin_to_celsius_sample (x : option number) :
  kelvin_to_celsius (of_sample x) = Ok (of_sample (spec_celsius x)).
Proof. destruct x as [a |]; reflexivity. Qed.

Lemma metres_to_mm_sample (x : option number) :
  metres_to_mm (of_sample x) = Ok (of_sample (spec_millimetres x)).
Proof. destruct x as [a |]; reflexivity. Qed.

Lemma comprehension_total {A B : Type} (f : A -> result B) (g : A -> B)
    (xs : list A) :
  (forall x, In x xs -> f x = Ok (g x)) ->
  comprehension f xs = Ok (map g xs).
Proof.
  induction xs as [| x xs IH]; intros H; simpl.
  - reflexivity.
  - rewrite (H x) by (left; reflexivity). simpl.
    rewrite IH by (intros y Hy; apply H; right; exact Hy).
    reflexivity.
Qed.

Lemma temps_c_of_series (xs : list (option number)) :
  temps_c_of (of_series xs) = Ok (of_series (map spec_celsius xs)).
Proof.
  unfold temps_c_of, of_series. simpl.
  rewrite (comprehension_total kelvin_to_celsius
             (fun v => match v with
                       | PyNone => PyNone
                       | _ => match as_number v with
                              | Ok a => PyNum (Float (to_R a - 273.15))
                              | Raise _ => PyNone
                              end
                       end)).
  - simpl. rewrite !map_map. do 2 f_equal.
    apply map_ext. intros [a |]; reflexivity.
  - intros v Hv. apply in_map_iff in Hv. destruct Hv as [[a |] [E _]];
      subst v; reflexivity.
Qed.

Lemma vals_mm_of_series (xs : list (option number)) :
  vals_mm_of (of_series xs) = Ok (of_series (map spec_millimetres xs)).
Proof.
  unfold vals_mm_of, of_series. simpl.
  rewrite (comprehension_total metres_to_mm
             (fun v => match v with
                       | PyNum a => PyNum (num_mul_int a 1000)
                       | _ => PyNone
                       end)).
  - simpl. rewrite !map_map. do 2 f_equal.
    apply map_ext. intros [a |]; reflexivity.
  - intros v Hv. apply in_map_iff in Hv. destruct Hv as [[a |] [E _]];
      subst v; reflexivity.
Qed.

(** C4: the temperature conversion turns a series of Kelvin values and
    nulls into a series of the same length, with k - 273.15 where the input
    has a number k and a null where it has a null, position by position;
    273.15 becomes 0.0. *)
Theorem temperature_conversion (temps_raw : list (option number)) :
  exists temps_c : list (option number),
    temps_c_of (of_series temps_raw) = Ok (of_series temps_c)
    /\ List.length temps_c = List.length temps_raw
    /\ (forall i k, nth_error temps_raw i = Some (Some k) ->
          nth_error temps_c i = Some (Some (Float (to_R k - 273.15))))
    /\ (forall i, nth_error temps_raw i = Some None ->
          nth_error temps_c i = Some None)
    /\ kelvin_to_celsius (PyNum (Float 273.15)) = Ok (PyNum (Float 0))
    /\ kelvin_to_celsius PyNone = Ok PyNone.
Proof.
  exists (map spec_celsius temps_raw).
  split; [apply temps_c_of_series|].
  split; [apply length_map|].
  split; [| split; [| split]].
  - intros i k H. rewrite nth_error_map, H. reflexivity.
  - intros i H. rewrite nth_error_map, H. reflexivity.
  - unfold kelvin_to_celsius, py_sub_float. simpl.
    do 3 f_equal. lra.
  - reflexivity.
Qed.

Lemma temperature_conversion_witness :
  exists temps_c : list (option number),
    temps_c_of (PyList [PyNum (Float 300); PyNone; PyNum (Int 273)])
    = Ok (of_series temps_c)
    /\ List.length temps_c = 3%nat
    /\ nth_error temps_c 0 = Some (Some (Float (300 - 273.15)))
    /\ nth_error temps_c 1 = Some None
    /\ nth_error temps_c 2 = Some (Some (Float (273 - 273.15))).
Proof.
  destruct (temperature_conversion [Some (Float 300); None; Some (Int 273)])
    as [temps_c [H1 [H2 [H3 [H4 _]]]]].
  exists temps_c.
  split; [exact H1|]. split; [exact H2|].
  split; [exact (H3 0%nat (Float 300) eq_refl)|].
  split; [exact (H4 1%nat eq_refl)|].
  exact (H3 2%nat (Int 273) eq_refl).
Defined.

(** C5: the precipitation conversion turns a series of values in metres and
    nulls into a series of the same length, with the value times 1000 where
    the input has a number and a null where it has a null; 0.001 m becomes
    1.0 mm. *)
Theorem precipitation_conversion (vals_raw : list (option number)) :
  exists vals_mm : list (option number),
    vals_mm_of (of_series vals_raw) = Ok (of_series vals_mm)
    /\ List.length vals_mm = List.length vals_raw
    /\ (forall i m, nth_error vals_raw i = Some (Some m) ->
          exists mm, nth_error vals_mm i = Some (Some mm)
                     /\ to_R mm = to_R m * 1000)
    /\ (forall i, nth_error vals_raw i = Some None ->
          nth_error vals_mm i = Some None)
    /\ metres_to_mm (PyNum (Float 0.001)) = Ok (PyNum (Float 1))
    /\ metres_to_mm PyNone = Ok PyNone.
Proof.
  exists (map spec_millimetres vals_raw).
  split; [apply vals_mm_of_series|].
  split; [apply length_map|].
  split; [| split; [| split]].
  - intros i m H. exists (num_mul_int m 1000).
    split; [rewrite nth_error_map, H; reflexivity|].
    destruct m as [n | x]; simpl; [rewrite mult_IZR|]; reflexivity.
  - intros i H. rewrite nth_error_map, H. reflexivity.
  - unfold metres_to_mm, py_mul_int. simpl.
    do 3 f_equal. lra.
  - reflexivity.
Qed.

Lemma precipitation_conversion_witness :
  exists vals_mm : list (option number),
    vals_mm_of (PyList [PyNum (Float 0.002); PyNone; PyNum (Int 1)])
    = Ok (of_series vals_mm)
    /\ List.length vals_mm = 3%nat
    /\ (exists mm, nth_error vals_mm 0 = Some (Some mm)
                   /\ to_R mm = 0.002 * 1000)
    /\ nth_error vals_mm 1 = Some None.
Proof.
  destruct (precipitation_conversion [Some (Float 0.002); None; Some (Int 1)])
    as [vals_mm [H1 [H2 [H3 [H4 _]]]]].
  exists vals_mm.
  split; [exact H1|]. split; [exact H2|].
  split; [exact (H3 0%nat (Float 0.002) eq_refl)|].
  exact (H4 1%nat eq_refl).
Defined.

(** ** Null samples in the wind tab *)

Lemma wind_speed_direction_none_u (v : pyval) :
  wind_speed_direction PyNone v = Raise TypeError.
Proof. reflexivity. Qed.

Lemma wind_speed_direction_none_v (u : pyval) :
  wind_speed_direction u PyNone = Raise TypeError.
Proof. destruct u as [| b | a | s | l | d]; reflexivity. Qed.

Lemma wind_speed_direction_raises (u v : pyval) (e : exn) :
  wind_speed_direction u v = Raise e -> e = TypeError.
Proof.
  unfold wind_speed_direction, py_sqr, math_atan2, math_sqrt.
  destruct (as_number u) as [a | eu] eqn:Eu; simpl.
  - destruct (as_number v) as [b | ev] eqn:Ev; simpl.
    + destruct (Rlt_dec (to_R (num_add (num_sqr a) (num_sqr b))) 0) as [H | H].
      * exfalso. rewrite to_R_num_add, !to_R_num_sqr in H. nra.
      * simpl. discriminate.
    + intros H. injection H as <-.
      destruct v as [| b | b | s | l | d]; simpl in Ev; congruence.
  - intros H. injection H as <-.
    destruct u as [| b | b | s | l | d]; simpl in Eu; congruence.
Qed.

Lemma wind_loop_null (pairs : list (pyval * pyval)) (speeds wind_dirs : list R) :
  (exists uu vv, In (uu, vv) pairs /\ (uu = PyNone \/ vv = PyNone)) ->
  wind_loop pairs speeds wind_dirs = Raise TypeError.
Proof.
  revert speeds wind_dirs.
  induction pairs as [| [u v] rest IH]; intros speeds wind_dirs [uu [vv [Hin Hn]]].
  - destruct Hin.
  - simpl.
    destruct (wind_speed_direction u v) as [[speed d] | e] eqn:E; simpl.
    + apply IH. destruct Hin as [Heq | Hin].
      * exfalso. injection Heq as -> ->.
        destruct Hn as [-> | ->].
        -- rewrite wind_speed_direction_none_u in E. discriminate.
        -- rewrite wind_speed_direction_none_v in E. discriminate.
      * exists uu, vv. split; assumption.
    + f_equal. apply (wind_speed_direction_raises u v). exact E.
Qed.

Lemma combine_nth_error {A B : Type} (xs : list A) (ys : list B) (i : nat)
    (x : A) (y : B) :
  nth_error xs i = Some x -> nth_error ys i = Some y ->
  In (x, y) (combine xs ys).
Proof.
  revert ys i. induction xs as [| a xs IH]; intros ys i Hx Hy.
  - destruct i; discriminate.
  - destruct ys as [| b ys]; [destruct i; discriminate|].
    destruct i as [| i]; simpl in *.
    + injection Hx as ->. injection Hy as ->. left. reflexivity.
    + right. apply (IH ys i); assumption.
Qed.

Section Fetch.

Variable P : platform.

Lemma fetch_forecast_ok (key : string) (la lo : R) (var : string) (h : Z) :
  status_code (forecast_reply P key la lo var h) = 200%Z ->
  fetch_forecast P key la lo var h
  = ([], json (forecast_reply P key la lo var h)).
Proof.
  intros H. unfold fetch_forecast. rewrite H. reflexivity.
Qed.

Lemma fetch_forecast_failed (key : string) (la lo : R) (var : string) (h : Z) :
  status_code (forecast_reply P key la lo var h) <> 200%Z ->
  fetch_forecast P key la lo var h
  = ([st_error ("API call failed: "
                ++ str_int (status_code (forecast_reply P key la lo var h))
                ++ " " ++ text (forecast_reply P key la lo var h))],
     Ok PyNone).
Proof.
  intros H. unfold fetch_forecast.
  apply Z.eqb_neq in H. rewrite H. reflexivity.
Qed.

End Fetch.

Lemma lookup_some_truthy (k : string) (d : list (string * pyval)) (v : pyval) :
  lookup k d = Some v -> py_truthy (PyDict d) = true.
Proof. destruct d; [discriminate | reflexivity]. Qed.

(** C3 fails on the code: when both wind components arrive and one of them
    has a null at an hour the other series covers, the wind tab ends with a
    [TypeError] after its heading, and shows nothing else. *)
Theorem wind_tab_null_sample_raises (P : platform) (S : sidebar)
    (du dv hu hv : list (string * pyval)) (us vs : list pyval)
    (i : nat) (uu vv : pyval) :
  let ru := forecast_reply P (api_key S) (lat S) (lon S) u_var (hours S) in
  let rv := forecast_reply P (api_key S) (lat S) (lon S) v_var (hours S) in
  status_code ru = 200%Z -> json ru = Ok (PyDict du) ->
  status_code rv = 200%Z -> json rv = Ok (PyDict dv) ->
  lookup "hourly" du = Some (PyDict hu) -> lookup u_var hu = Some (PyList us) ->
  lookup "hourly" dv = Some (PyDict hv) -> lookup v_var hv = Some (PyList vs) ->
  nth_error us i = Some uu -> nth_error vs i = Some vv ->
  uu = PyNone \/ vv = PyNone ->
  tab_wind P S = ([st_subheader "Wind Forecast (100 m AGL)"], Raise TypeError).
Proof.
  intros ru rv Hsu Hju Hsv Hjv Hdu Hhu Hdv Hhv Hus Hvs Hnull.
  unfold tab_wind.
  rewrite (fetch_forecast_ok P _ _ _ _ _ Hsu), (fetch_forecast_ok P _ _ _ _ _ Hsv).
  fold ru rv. rewrite Hju, Hjv. cbn [emit lift bind app].
  rewrite (lookup_some_truthy _ _ _ Hdu), (lookup_some_truthy _ _ _ Hdv).
  cbn [andb py_getitem]. rewrite Hdu, Hdv.
  cbn [lift bind app py_get]. rewrite Hhu, Hhv.
  destruct (lookup "time" hu) as [times |];
    cbn [lift bind app py_zip py_iter rbind];
    rewrite (wind_loop_null (combine us vs) [] []);
    try reflexivity;
    exists uu, vv; (split; [exact (combine_nth_error _ _ _ _ _ Hus Hvs) | exact Hnull]).
Qed.

Lemma wind_tab_null_sample_witness :
  tab_wind wind_null_machine dover
  = ([st_subheader "Wind Forecast (100 m AGL)"], Raise TypeError).
Proof.
  apply (wind_tab_null_sample_raises wind_null_machine dover
           [("hourly", PyDict [("time", two_hours);
                               (u_var, PyList [PyNum (Float 3); PyNone])])]
           [("hourly", PyDict [("time", two_hours);
                               (v_var, PyList [PyNum (Float 4);
                                               PyNum (Float 1.5)])])]
           [("time", two_hours); (u_var, PyList [PyNum (Float 3); PyNone])]
           [("time", two_hours);
            (v_var, PyList [PyNum (Float 4); PyNum (Float 1.5)])]
           [PyNum (Float 3); PyNone]
           [PyNum (Float 4); PyNum (Float 1.5)]
           1%nat PyNone (PyNum (Float 1.5)));
    try reflexivity.
  left. reflexivity.
Defined.

(** ** Failed requests and empty series *)

Lemma plot_time_series_empty (P : platform) (times values : pyval)
    (ylabel color : string) :
  py_truthy times = false \/ py_truthy values = false ->
  plot_time_series P times values ylabel color
  = ([no_data_notice], Ok (PyList [], PyList [])).
Proof.
  intros H. unfold plot_time_series.
  replace (negb (py_truthy times) || negb (py_truthy values))%bool with true.
  - reflexivity.
  - destruct H as [-> | ->]; simpl; [reflexivity | apply eq_sym, orb_true_r].
Qed.

Section FailedFetch.

Variable P : platform.
Variable S : sidebar.

Let reply (var : string) : response :=
  forecast_reply P (api_key S) (lat S) (lon S) var (hours S).

Ltac failed_tab H :=
  rewrite (fetch_forecast_failed P _ _ _ _ _ H); reflexivity.

Lemma tab_temperature_failed :
  status_code (reply "2m_temperature") <> 200%Z ->
  tab_temperature P S
  = ([st_subheader "Temperature Forecast";
      failure_notice (reply "2m_temperature")], Ok tt).
Proof. intros H. unfold tab_temperature. failed_tab H. Qed.

Lemma tab_humidity_failed :
  status_code (reply "relative_humidity_2m") <> 200%Z ->
  tab_humidity P S
  = ([st_subheader "Humidity Forecast";
      failure_notice (reply "relative_humidity_2m")], Ok tt).
Proof. intros H. unfold tab_humidity. failed_tab H. Qed.

Lemma tab_precipitation_failed :
  status_code (reply "total_precipitation") <> 200%Z ->
  tab_precipitation P S
  = ([st_subheader "Precipitation Forecast";
      failure_notice (reply "total_precipitation")], Ok tt).
Proof. intros H. unfold tab_precipitation. failed_tab H. Qed.

(** The wind tab asks for both components before it looks at either. *)
Lemma tab_wind_failed :
  status_code (reply u_var) <> 200%Z \/ status_code (reply v_var) <> 200%Z ->
  no_chart (tab_wind P S)
  /\ (status_code (reply u_var) <> 200%Z ->
      In (failure_notice (reply u_var)) (shown (tab_wind P S)))
  /\ (status_code (reply v_var) <> 200%Z ->
      (status_code (reply u_var) <> 200%Z
       \/ exists u, json (reply u_var) = Ok u) ->
      In (failure_notice (reply v_var)) (shown (tab_wind P S))
      /\ outcome (tab_wind P S) = Ok tt).
Proof.
  intros H. unfold tab_wind, no_chart.
  destruct (Z.eq_dec (status_code (reply u_var)) 200) as [Hu | Hu];
    destruct (Z.eq_dec (status_code (reply v_var)) 200) as [Hv | Hv];
    try (exfalso; destruct H; contradiction).
  - rewrite (fetch_forecast_ok P _ _ _ _ _ Hu),
      (fetch_forecast_failed P _ _ _ _ _ Hv).
    fold (reply u_var) (reply v_var).
    destruct (json (reply u_var)) as [u | e] eqn:Eu.
    + cbn [emit lift bind ret app]. rewrite andb_false_r.
      cbn [shown outcome fst snd app].
      split; [repeat constructor|].
      split; [intros Hc; contradiction|].
      intros _ _. split; [right; left|]; reflexivity.
    + cbn [emit lift bind ret app shown outcome fst snd].
      split; [repeat constructor|].
      split; [intros Hc; contradiction|].
      intros _ [Hc | [u Hc]]; [contradiction | discriminate].
  - rewrite (fetch_forecast_failed P _ _ _ _ _ Hu),
      (fetch_forecast_ok P _ _ _ _ _ Hv).
    fold (reply u_var) (reply v_var).
    destruct (json (reply v_var)) as [v | e] eqn:Ev;
      cbn [emit lift bind ret app py_truthy andb shown outcome fst snd];
      (split; [repeat constructor|]);
      (split; [intros _; right; left; reflexivity|]);
      intros Hc; contradiction.
  - rewrite (fetch_forecast_failed P _ _ _ _ _ Hu),
      (fetch_forecast_failed P _ _ _ _ _ Hv).
    fold (reply u_var) (reply v_var).
    cbn [emit lift bind ret app py_truthy andb shown outcome fst snd].
    split; [repeat constructor|].
    split; [intros _; right; left; reflexivity|].
    intros _ _. split; [right; right; left|]; reflexivity.
Qed.

End FailedFetch.

Lemma py_get_no_series (var : string) (h : list (string * pyval)) :
  no_series var h -> py_get (PyDict h) var (PyList []) = Ok (PyList []).
Proof. intros [E | E]; simpl; rewrite E; reflexivity. Qed.

Section NoData.

Variable P : platform.
Variable S : sidebar.
Variables d h : list (string * pyval).

Let reply (var : string) : response :=
  forecast_reply P (api_key S) (lat S) (lon S) var (hours S).

Ltac open_tab Hs Hj Hd :=
  unfold reply in Hs, Hj; rewrite (fetch_forecast_ok P _ _ _ _ _ Hs), Hj;
  cbn [emit lift bind app]; rewrite (lookup_some_truthy _ _ _ Hd);
  cbn [py_getitem]; rewrite Hd; cbn [lift bind app].

Lemma tab_temperature_no_data :
  status_code (reply "2m_temperature") = 200%Z ->
  json (reply "2m_temperature") = Ok (PyDict d) ->
  lookup "hourly" d = Some (PyDict h) ->
  no_series "2m_temperature" h ->
  tab_temperature P S
  = ([st_subheader "Temperature Forecast"; no_data_notice;
      st_info "ℹ️ Temperature is at **2 m AGL** and displayed in **°C**."],
     Ok tt).
Proof.
  intros Hs Hj Hd Hn. unfold tab_temperature. open_tab Hs Hj Hd.
  rewrite (py_get_no_series _ _ Hn).
  destruct (py_get (PyDict h) "time" (PyList [])) as [times | e] eqn:Et;
    [| simpl in Et; destruct (lookup "time" h); discriminate].
  cbn [lift bind app temps_c_of py_iter comprehension rbind].
  rewrite plot_time_series_empty by (right; reflexivity).
  reflexivity.
Qed.

Lemma tab_humidity_no_data :
  status_code (reply "relative_humidity_2m") = 200%Z ->
  json (reply "relative_humidity_2m") = Ok (PyDict d) ->
  lookup "hourly" d = Some (PyDict h) ->
  no_series "relative_humidity_2m" h ->
  tab_humidity P S
  = ([st_subheader "Humidity Forecast"; no_data_notice;
      st_info "ℹ️ Humidity is at **2 m AGL** and displayed in **%**."],
     Ok tt).
Proof.
  intros Hs Hj Hd Hn. unfold tab_humidity. open_tab Hs Hj Hd.
  rewrite (py_get_no_series _ _ Hn).
  destruct (py_get (PyDict h) "time" (PyList [])) as [times | e] eqn:Et;
    [| simpl in Et; destruct (lookup "time" h); discriminate].
  cbn [lift bind app].
  rewrite plot_time_series_empty by (right; reflexivity).
  reflexivity.
Qed.

Lemma tab_precipitation_no_data :
  status_code (reply "total_precipitation") = 200%Z ->
  json (reply "total_precipitation") = Ok (PyDict d) ->
  lookup "hourly" d = Some (PyDict h) ->
  no_series "total_precipitation" h ->
  tab_precipitation P S
  = ([st_subheader "Precipitation Forecast"; no_data_notice;
      st_info "ℹ️ Precipitation is shown as **total precipitation in millimetres (mm)**."],
     Ok tt).
Proof.
  intros Hs Hj Hd Hn. unfold tab_precipitation. open_tab Hs Hj Hd.
  rewrite (py_get_no_series _ _ Hn).
  destruct (py_get (PyDict h) "time" (PyList [])) as [times | e] eqn:Et;
    [| simpl in Et; destruct (lookup "time" h); discriminate].
  cbn [lift bind app vals_mm_of py_iter comprehension rbind].
  rewrite plot_time_series_empty by (right; reflexivity).
  reflexivity.
Qed.

End NoData.

Lemma tab_wind_no_data (P : platform) (S : sidebar)
    (du dv hu hv : list (string * pyval)) :
  let ru := forecast_reply P (api_key S) (lat S) (lon S) u_var (hours S) in
  let rv := forecast_reply P (api_key S) (lat S) (lon S) v_var (hours S) in
  status_code ru = 200%Z -> json ru = Ok (PyDict du) ->
  status_code rv = 200%Z -> json rv = Ok (PyDict dv) ->
  lookup "hourly" du = Some (PyDict hu) ->
  lookup "hourly" dv = Some (PyDict hv) ->
  no_series u_var hu ->
  (lookup v_var hv = None \/ exists vs, lookup v_var hv = Some (PyList vs)) ->
  tab_wind P S
  = ([st_subheader "Wind Forecast (100 m AGL)"; no_data_notice;
      st_info ("ℹ️ Wind is shown at **100 m AGL**, with speeds in **knots (kt)** "
               ++ "and directions following the **meteorological convention** (0° = North).")],
     Ok tt).
Proof.
  intros ru rv Hsu Hju Hsv Hjv Hdu Hdv Hn Hv.
  unfold tab_wind.
  rewrite (fetch_forecast_ok P _ _ _ _ _ Hsu), (fetch_forecast_ok P _ _ _ _ _ Hsv).
  fold ru rv. rewrite Hju, Hjv. cbn [emit lift bind app].
  rewrite (lookup_some_truthy _ _ _ Hdu), (lookup_some_truthy _ _ _ Hdv).
  cbn [andb py_getitem]. rewrite Hdu, Hdv. cbn [lift bind app].
  rewrite (py_get_no_series _ _ Hn).
  assert (Hz : exists vs, py_get (PyDict hv) v_var (PyList []) = Ok (PyList vs)).
  { destruct Hv as [E | [vs E]]; simpl; rewrite E; eexists; reflexivity. }
  destruct Hz as [vs ->].
  destruct (py_get (PyDict hu) "time" (PyList [])) as [times | e] eqn:Et;
    [| simpl in Et; destruct (lookup "time" hu); discriminate].
  cbn [lift bind app py_zip py_iter rbind combine wind_loop py_floats map].
  rewrite plot_time_series_empty by (right; reflexivity).
  reflexivity.
Qed.

(** A null as the last sample of a temperature series passes the
    conversion and the chart, and ends the tab at the line that prints the
    latest value. *)
Lemma tab_temperature_last_null :
  outcome (tab_temperature temperature_null_machine dover) = Raise TypeError
  /\ existsb is_chart (shown (tab_temperature temperature_null_machine dover))
     = true.
Proof. split; reflexivity. Qed.

(** C7: a reply whose status is not 200 makes [fetch_forecast] show an
    error with the status code and the body text and return [None]; the tab
    then shows no chart; and [plot_time_series], given no times or no
    values, shows the no-data notice instead of a chart and returns two
    empty lists, as happens in a tab whose series is absent or empty. *)
Theorem failed_fetch_and_empty_series (P : platform) (S : sidebar) :
  let reply var := forecast_reply P (api_key S) (lat S) (lon S) var (hours S) in
  (forall key la lo var h,
      status_code (forecast_reply P key la lo var h) <> 200%Z ->
      fetch_forecast P key la lo var h
      = ([st_error ("API call failed: "
                    ++ str_int (status_code (forecast_reply P key la lo var h))
                    ++ " " ++ text (forecast_reply P key la lo var h))],
         Ok PyNone))
  /\ (status_code (reply "2m_temperature") <> 200%Z ->
      tab_temperature P S
      = ([st_subheader "Temperature Forecast";
          failure_notice (reply "2m_temperature")], Ok tt))
  /\ (status_code (reply "relative_humidity_2m") <> 200%Z ->
      tab_humidity P S
      = ([st_subheader "Humidity Forecast";
          failure_notice (reply "relative_humidity_2m")], Ok tt))
  /\ (status_code (reply "total_precipitation") <> 200%Z ->
      tab_precipitation P S
      = ([st_subheader "Precipitation Forecast";
          failure_notice (reply "total_precipitation")], Ok tt))
  /\ (status_code (reply u_var) <> 200%Z \/ status_code (reply v_var) <> 200%Z ->
      no_chart (tab_wind P S)
      /\ (status_code (reply u_var) <> 200%Z ->
          In (failure_notice (reply u_var)) (shown (tab_wind P S)))
      /\ (status_code (reply v_var) <> 200%Z ->
          (status_code (reply u_var) <> 200%Z
           \/ exists u, json (reply u_var) = Ok u) ->
          In (failure_notice (reply v_var)) (shown (tab_wind P S))
          /\ outcome (tab_wind P S) = Ok tt))
  /\ (forall times values ylabel color,
      py_truthy times = false \/ py_truthy values = false ->
      plot_time_series P times values ylabel color
      = ([st_warning "No data available to plot."], Ok (PyList [], PyList [])))
  /\ (forall d h,
      status_code (reply "2m_temperature") = 200%Z ->
      json (reply "2m_temperature") = Ok (PyDict d) ->
      lookup "hourly" d = Some (PyDict h) ->
      no_series "2m_temperature" h ->
      no_chart (tab_temperature P S)
      /\ In (st_warning "No data available to plot.")
            (shown (tab_temperature P S))
      /\ outcome (tab_temperature P S) = Ok tt)
  /\ (forall d h,
      status_code (reply "relative_humidity_2m") = 200%Z ->
      json (reply "relative_humidity_2m") = Ok (PyDict d) ->
      lookup "hourly" d = Some (PyDict h) ->
      no_series "relative_humidity_2m" h ->
      no_chart (tab_humidity P S)
      /\ In (st_warning "No data available to plot.")
            (shown (tab_humidity P S))
      /\ outcome (tab_humidity P S) = Ok tt)
  /\ (forall d h,
      status_code (reply "total_precipitation") = 200%Z ->
      json (reply "total_precipitation") = Ok (PyDict d) ->
      lookup "hourly" d = Some (PyDict h) ->
      no_series "total_precipitation" h ->
      no_chart (tab_precipitation P S)
      /\ In (st_warning "No data available to plot.")
            (shown (tab_precipitation P S))
      /\ outcome (tab_precipitation P S) = Ok tt)
  /\ (forall du dv hu hv,
      status_code (reply u_var) = 200%Z -> json (reply u_var) = Ok (PyDict du) ->
      status_code (reply v_var) = 200%Z -> json (reply v_var) = Ok (PyDict dv) ->
      lookup "hourly" du = Some (PyDict hu) ->
      lookup "hourly" dv = Some (PyDict hv) ->
      no_series u_var hu ->
      (lookup v_var hv = None \/ exists vs, lookup v_var hv = Some (PyList vs)) ->
      no_chart (tab_wind P S)
      /\ In (st_warning "No data available to plot.") (shown (tab_wind P S))
      /\ outcome (tab_wind P S) = Ok tt).
Proof.
  intros reply.
  split; [exact (fetch_forecast_failed P)|].
  split; [exact (tab_temperature_failed P S)|].
  split; [exact (tab_humidity_failed P S)|].
  split; [exact (tab_precipitation_failed P S)|].
  split; [exact (tab_wind_failed P S)|].
  split; [exact (plot_time_series_empty P)|].
  split; [| split; [| split]].
  - intros d h Hs Hj Hd Hn.
    rewrite (tab_temperature_no_data P S d h Hs Hj Hd Hn).
    split; [repeat constructor | split; [right; left|]; reflexivity].
  - intros d h Hs Hj Hd Hn.
    rewrite (tab_humidity_no_data P S d h Hs Hj Hd Hn).
    split; [repeat constructor | split; [right; left|]; reflexivity].
  - intros d h Hs Hj Hd Hn.
    rewrite (tab_precipitation_no_data P S d h Hs Hj Hd Hn).
    split; [repeat constructor | split; [right; left|]; reflexivity].
  - intros du dv hu hv Hsu Hju Hsv Hjv Hdu Hdv Hn Hv.
    rewrite (tab_wind_no_data P S du dv hu hv Hsu Hju Hsv Hjv Hdu Hdv Hn Hv).
    split; [repeat constructor | split; [right; left|]; reflexivity].
Qed.

Lemma failed_fetch_witness :
  tab_temperature server_down dover
  = ([st_subheader "Temperature Forecast";
      st_error "API call failed: 503 Service Unavailable"], Ok tt).
Proof.
  apply (proj1 (proj2 (failed_fetch_and_empty_series server_down dover))).
  discriminate.
Defined.

(** ** The usage report *)

Lemma py_get_field_or (d : list (string * pyval)) (k : string) (default : pyval) :
  py_get (PyDict d) k default = Ok (field_or d k default).
Proof. unfold py_get, field_or. destruct (lookup k d); reflexivity. Qed.






(** ** The reset time *)


Lemma astimezone_naive (local : Z) (dt : datetime) :
  tzinfo dt = None ->
  astimezone local dt = mkdt (wall dt) (Some local).
Proof. intros H. unfold astimezone. rewrite H. reflexivity. Qed.

(** A timestamp that spells its offset is converted as the specification
    asks: the instant is kept and read on the local clock. *)
Lemma reset_time_with_offset (P : platform) (s : string) (dt : datetime)
    (off : Z) :
  fromisoformat (PyStr (remove_char "Z" s)) = Ok dt ->
  tzinfo dt = Some off ->
  reset_local_time P (PyStr s)
  = Ok (spec_reset_local_time (local_zone P) (wall dt - off)).
Proof.
  intros Hp Ho. unfold reset_local_time. cbn [py_replace_Z rbind].
  rewrite Hp. cbn [rbind]. unfold astimezone, spec_reset_local_time.
  rewrite Ho. reflexivity.
Qed.

(** C9 fails on the code: a timestamp that ends in Z, or carries no offset,
    is parsed as a naive reading after the Z is removed, and [astimezone]
    then takes that reading for a local one.  The time shown has the digits
    of the UTC reading under the local zone's name; it is the converted time
    only on a machine whose zone is UTC. *)
Theorem reset_time_not_converted (P : platform) (s : string) (utc_time : datetime) :
  fromisoformat (PyStr (remove_char "Z" s)) = Ok utc_time ->
  tzinfo utc_time = None ->
  reset_local_time P (PyStr s) = Ok (mkdt (wall utc_time) (Some (local_zone P)))
  /\ (local_zone P <> 0%Z ->
      mkdt (wall utc_time) (Some (local_zone P))
      <> spec_reset_local_time (local_zone P) (wall utc_time)).
Proof.
  intros Hp Hn. split.
  - unfold reset_local_time. cbn [py_replace_Z rbind].
    rewrite Hp. cbn [rbind]. rewrite (astimezone_naive _ _ Hn). reflexivity.
  - intros Hz E. unfold spec_reset_local_time in E.
    injection E as E. lia.
Qed.

(** Midnight UTC on 2025-01-01, read on a machine one hour east of UTC: the
    code shows 00:00 local, which is 23:00 UTC of the day before, and not
    01:00 local. *)
Lemma reset_time_not_converted_witness :
  reset_local_time usage_partial_machine (PyStr "2025-01-01T00:00:00Z")
  = Ok (mkdt 1735689600 (Some 3600%Z))
  /\ utc_instant (mkdt 1735689600 (Some 3600%Z)) = Some 1735686000%Z
  /\ spec_reset_local_time 3600 1735689600 = mkdt 1735693200 (Some 3600%Z).
Proof.
  split; [| split; reflexivity].
  apply (proj1 (reset_time_not_converted usage_partial_machine
                  "2025-01-01T00:00:00Z" (mkdt 1735689600 None)
                  eq_refl eq_refl)).
Defined.

(** * Further properties of the code *)

(** ** The direction as a bearing *)

Lemma sin_cos_turns (x : R) (k : Z) :
  sin (x + 2 * IZR k * PI) = sin x /\ cos (x + 2 * IZR k * PI) = cos x.
Proof.
  destruct (Z_le_gt_dec 0 k) as [Hk | Hk].
  - rewrite <- (Z2Nat.id k Hk), <- INR_IZR_INZ.
    split; [apply sin_period | apply cos_period].
  - assert (E : x = x + 2 * IZR k * PI + 2 * INR (Z.to_nat (- k)) * PI).
    { rewrite INR_IZR_INZ, Z2Nat.id by lia. rewrite opp_IZR. ring. }
    split.
    + rewrite E at 2. symmetry. apply sin_period.
    + rewrite E at 2. symmetry. apply cos_period.
Qed.

Lemma direction_radians (a : R) :
  exists k : Z,
    math_radians (float_mod (math_degrees a + 180) 360)
    = a + PI + 2 * IZR k * PI.
Proof.
  destruct (float_mod_congruent (math_degrees a + 180) 360) as [k Hk].
  exists k. rewrite Hk. unfold math_radians, math_degrees.
  field. apply PI_neq0.
Qed.

(** X1: the direction is the bearing the wind blows from: the components
    are the speed times minus the sine and minus the cosine of the
    direction (in knots, as the speed is). *)
Theorem wind_direction_is_bearing_from (u v : R) :
  exists speed direction,
    wind_speed_direction (PyNum (Float u)) (PyNum (Float v))
    = Ok (speed, direction)
    /\ u * 1.94384 = - speed * sin (math_radians direction)
    /\ v * 1.94384 = - speed * cos (math_radians direction).
Proof.
  rewrite wind_speed_direction_numbers. cbn [to_R].
  eexists. eexists. split; [reflexivity|].
  destruct (direction_radians (atan2 u v)) as [k ->].
  destruct (sin_cos_turns (atan2 u v + PI) k) as [-> ->].
  rewrite neg_sin, neg_cos.
  destruct (Req_dec u 0) as [Hu | Hu]; [destruct (Req_dec v 0) as [Hv | Hv]|].
  - subst u v. replace (0 * 0 + 0 * 0) with 0 by ring. rewrite sqrt_0.
    split; ring.
  - destruct (atan2_polar u v (or_introl Hv)) as [Hs Hc].
    rewrite Hs, Hc. replace (v * v + u * u) with (u * u + v * v) by ring.
    assert (0 < sqrt (u * u + v * v)) by (apply sqrt_lt_R0; nra).
    split; field; lra.
  - destruct (atan2_polar u v (or_intror Hu)) as [Hs Hc].
    rewrite Hs, Hc. replace (v * v + u * u) with (u * u + v * v) by ring.
    assert (0 < sqrt (u * u + v * v)) by (apply sqrt_lt_R0; nra).
    split; field; lra.
Qed.

Lemma atan2_scale (k y x : R) : 0 < k -> atan2 (k * y) (k * x) = atan2 y x.
Proof.
  intros Hk. unfold atan2.
  assert (Hq : x <> 0 -> k * y / (k * x) = y / x) by (intros; field; lra).
  destruct (Rlt_dec 0 (k * x)) as [H1 | H1]; destruct (Rlt_dec 0 x) as [H2 | H2];
    try (exfalso; nra).
  - rewrite Hq by lra. reflexivity.
  - destruct (Rlt_dec (k * x) 0) as [H3 | H3];
      destruct (Rlt_dec x 0) as [H4 | H4]; try (exfalso; nra).
    + rewrite Hq by lra.
      destruct (Rle_dec 0 (k * y)) as [H5 | H5];
        destruct (Rle_dec 0 y) as [H6 | H6]; try (exfalso; nra); reflexivity.
    + destruct (Rlt_dec 0 (k * y)) as [H5 | H5];
        destruct (Rlt_dec 0 y) as [H6 | H6]; try (exfalso; nra);
        [reflexivity|].
      destruct (Rlt_dec (k * y) 0) as [H7 | H7];
        destruct (Rlt_dec y 0) as [H8 | H8]; try (exfalso; nra); reflexivity.
Qed.

(** X2: a wind [k] times as strong along the same line has [k] times the
    speed and the same direction. *)
Theorem wind_scaling (k u v : R) :
  0 < k ->
  exists speed direction,
    wind_speed_direction (PyNum (Float u)) (PyNum (Float v))
    = Ok (speed, direction)
    /\ wind_speed_direction (PyNum (Float (k * u))) (PyNum (Float (k * v)))
       = Ok (k * speed, direction).
Proof.
  intros Hk. rewrite !wind_speed_direction_numbers. cbn [to_R].
  eexists. eexists. split; [reflexivity|].
  rewrite (atan2_scale k u v Hk).
  replace (k * u * (k * u) + k * v * (k * v))
    with (k * k * (u * u + v * v)) by ring.
  rewrite sqrt_mult by nra. rewrite sqrt_square by lra.
  f_equal. f_equal. ring.
Qed.

Lemma wind_scaling_witness :
  exists speed direction,
    wind_speed_direction (PyNum (Float 3)) (PyNum (Float 4))
    = Ok (speed, direction)
    /\ wind_speed_direction (PyNum (Float (2 * 3))) (PyNum (Float (2 * 4)))
       = Ok (2 * speed, direction).
Proof. apply (wind_scaling 2 3 4). lra. Defined.

Lemma atan2_opposite (y x : R) :
  x <> 0 \/ y <> 0 ->
  atan2 (- y) (- x) = atan2 y x + PI \/ atan2 (- y) (- x) = atan2 y x - PI.
Proof.
  intros Hne. unfold atan2.
  assert (Hq : x <> 0 -> - y / - x = y / x) by (intros; field; lra).
  destruct (Rlt_dec 0 x) as [H1 | H1].
  - destruct (Rlt_dec 0 (- x)) as [H2 | H2]; [lra|].
    destruct (Rlt_dec (- x) 0) as [H3 | H3]; [| lra].
    rewrite Hq by lra.
    destruct (Rle_dec 0 (- y)); [left | right]; reflexivity.
  - destruct (Rlt_dec x 0) as [H2 | H2].
    + destruct (Rlt_dec 0 (- x)) as [H3 | H3]; [| lra].
      rewrite Hq by lra.
      destruct (Rle_dec 0 y); [right | left]; ring.
    + assert (x = 0) by lra. subst x.
      assert (Hy : y <> 0) by (destruct Hne; [lra | assumption]).
      destruct (Rlt_dec 0 (- 0)) as [H3 | H3]; [lra|].
      destruct (Rlt_dec (- 0) 0) as [H4 | H4]; [lra|].
      destruct (Rlt_dec 0 y) as [H5 | H5].
      * destruct (Rlt_dec 0 (- y)) as [H6 | H6]; [lra|].
        destruct (Rlt_dec (- y) 0) as [H7 | H7]; [| lra].
        right. field.
      * destruct (Rlt_dec y 0) as [H6 | H6]; [| lra].
        destruct (Rlt_dec 0 (- y)) as [H7 | H7]; [| lra].
        left. field.
Qed.

(** X3: a wind that is not calm and the wind blowing the opposite way have
    the same speed and directions half a turn apart. *)
Theorem wind_reversed (u v : R) :
  u <> 0 \/ v <> 0 ->
  exists speed direction direction',
    wind_speed_direction (PyNum (Float u)) (PyNum (Float v))
    = Ok (speed, direction)
    /\ wind_speed_direction (PyNum (Float (- u))) (PyNum (Float (- v)))
       = Ok (speed, direction')
    /\ is_mod (direction + 180) 360 direction'.
Proof.
  intros Hne. rewrite !wind_speed_direction_numbers. cbn [to_R].
  replace (- u * - u + - v * - v) with (u * u + v * v) by ring.
  eexists. eexists. eexists. split; [reflexivity|]. split; [reflexivity|].
  split; [apply float_mod_bounds; lra|].
  destruct (float_mod_congruent (math_degrees (atan2 u v) + 180) 360)
    as [k Hk].
  destruct (float_mod_congruent (math_degrees (atan2 (- u) (- v)) + 180) 360)
    as [k' Hk'].
  rewrite Hk, Hk'. unfold math_degrees.
  assert (Hne' : v <> 0 \/ u <> 0) by tauto.
  destruct (atan2_opposite u v Hne') as [-> | ->].
  - exists (k - k')%Z. rewrite minus_IZR. field. apply PI_neq0.
  - exists (k - k' + 1)%Z. rewrite plus_IZR, minus_IZR. field. apply PI_neq0.
Qed.

Lemma wind_reversed_witness :
  exists speed direction direction',
    wind_speed_direction (PyNum (Float 3)) (PyNum (Float 4))
    = Ok (speed, direction)
    /\ wind_speed_direction (PyNum (Float (- 3))) (PyNum (Float (- 4)))
       = Ok (speed, direction')
    /\ is_mod (direction + 180) 360 direction'.
Proof. apply (wind_reversed 3 4). left. lra. Defined.

Lemma compass_of_index (d : R) (r : Z) :
  d = 22.5 * IZR r ->
  deg_to_compass (PyNum (Float d)) = list_index dirs (r mod 16)%Z.
Proof.
  intros ->. apply (deg_to_compass_at (Float (22.5 * IZR r)) r). simpl.
  split.
  - apply Rmult_lt_reg_r with (r := 22.5); [lra|].
    replace (22.5 * IZR r / 22.5 * 22.5) with (22.5 * IZR r) by (field; lra).
    lra.
  - apply Rmult_lt_reg_r with (r := 22.5); [lra|].
    replace (22.5 * IZR r / 22.5 * 22.5) with (22.5 * IZR r) by (field; lra).
    lra.
Qed.

(** X4: the four winds along the axes.  A wind blowing due North (u = 0,
    v > 0) comes from 180 degrees and is labelled S; due South, from 0
    degrees, N; due East (u > 0, v = 0), from 270 degrees, W; due West, from
    90 degrees, E; whatever its strength. *)
Theorem winds_along_the_axes (w : R) :
  0 < w ->
  (exists speed,
      wind_speed_direction (PyNum (Float 0)) (PyNum (Float w))
      = Ok (speed, 180)
      /\ deg_to_compass (PyNum (Float 180)) = Ok "S")
  /\ (exists speed,
      wind_speed_direction (PyNum (Float 0)) (PyNum (Float (- w)))
      = Ok (speed, 0)
      /\ deg_to_compass (PyNum (Float 0)) = Ok "N")
  /\ (exists speed,
      wind_speed_direction (PyNum (Float w)) (PyNum (Float 0))
      = Ok (speed, 270)
      /\ deg_to_compass (PyNum (Float 270)) = Ok "W")
  /\ (exists speed,
      wind_speed_direction (PyNum (Float (- w))) (PyNum (Float 0))
      = Ok (speed, 90)
      /\ deg_to_compass (PyNum (Float 90)) = Ok "E").
Proof.
  intros Hw. pose proof PI_RGT_0 as Hpi.
  split; [| split; [| split]].
  - rewrite wind_speed_direction_numbers. cbn [to_R].
    rewrite atan2_right by lra.
    replace (0 / w) with 0 by (field; lra). rewrite atan_0.
    unfold math_degrees. rewrite float_mod_small by lra.
    eexists. split; [f_equal; f_equal; ring|].
    rewrite (compass_of_index 180 8) by lra. reflexivity.
  - rewrite wind_speed_direction_numbers. cbn [to_R].
    unfold atan2.
    destruct (Rlt_dec 0 (- w)) as [H | H]; [lra|].
    destruct (Rlt_dec (- w) 0) as [H' | H']; [| lra].
    destruct (Rle_dec 0 0) as [H0 | H0]; [| lra].
    replace (0 / - w) with 0 by (field; lra). rewrite atan_0.
    unfold math_degrees.
    replace ((0 + PI) * (180 / PI) + 180) with 360 by (field; lra).
    rewrite float_mod_period by lra.
    eexists. split; [reflexivity|].
    rewrite (compass_of_index 0 0) by lra. reflexivity.
  - rewrite wind_speed_direction_numbers. cbn [to_R].
    rewrite atan2_up by lra. unfold math_degrees.
    replace (PI / 2 * (180 / PI) + 180) with 270 by (field; lra).
    rewrite float_mod_small by lra.
    eexists. split; [reflexivity|].
    rewrite (compass_of_index 270 12) by lra. reflexivity.
  - rewrite wind_speed_direction_numbers. cbn [to_R].
    unfold atan2.
    destruct (Rlt_dec 0 0) as [H | H]; [lra|].
    destruct (Rlt_dec 0 (- w)) as [H1 | H1]; [lra|].
    destruct (Rlt_dec (- w) 0) as [H2 | H2]; [| lra].
    unfold math_degrees.
    replace (- (PI / 2) * (180 / PI) + 180) with 90 by (field; lra).
    rewrite float_mod_small by lra.
    eexists. split; [reflexivity|].
    rewrite (compass_of_index 90 4) by lra. reflexivity.
Qed.

Lemma winds_along_the_axes_witness :
  exists speed,
    wind_speed_direction (PyNum (Float 0)) (PyNum (Float 5)) = Ok (speed, 180)
    /\ deg_to_compass (PyNum (Float 180)) = Ok "S".
Proof.
  apply (proj1 (winds_along_the_axes 5 ltac:(lra))).
Defined.

(** ** Arguments that are not numbers *)

Lemma as_number_is_number (v : pyval) :
  (is_number v = true -> exists a, as_number v = Ok a)
  /\ (is_number v = false -> as_number v = Raise TypeError).
Proof.
  destruct v as [| b | a | s | l | d]; simpl; split; intros H;
    try discriminate; try reflexivity; eexists; reflexivity.
Qed.

(** X5: on numbers of magnitude up to 1e150 (booleans count, as in
    Python), where no float operation overflows, [wind_speed_direction]
    returns a pair; a first argument that is a null, a string, a list or a
    dictionary raises [TypeError], and so does such a second argument after
    a first one that is a number of that magnitude. *)
Theorem wind_speed_direction_domain (u v : pyval) :
  (is_number u = true -> is_number v = true ->
   within (10 ^ 150) u -> within (10 ^ 150) v ->
   exists speed direction, wind_speed_direction u v = Ok (speed, direction))
  /\ (is_number u = false -> wind_speed_direction u v = Raise TypeError)
  /\ (is_number u = true -> within (10 ^ 150) u -> is_number v = false ->
      wind_speed_direction u v = Raise TypeError).
Proof.
  split; [| split].
  - intros Hu Hv _ _.
    destruct (proj1 (as_number_is_number u) Hu) as [a Ea].
    destruct (proj1 (as_number_is_number v) Hv) as [b Eb].
    assert (E : wind_speed_direction u v
                = wind_speed_direction (PyNum a) (PyNum b)).
    { unfold wind_speed_direction, py_sqr, math_atan2.
      simpl as_number. rewrite Ea, Eb. reflexivity. }
    rewrite E, wind_speed_direction_numbers. eexists. eexists. reflexivity.
  - intros Hu. unfold wind_speed_direction, py_sqr.
    rewrite (proj2 (as_number_is_number u) Hu). reflexivity.
  - intros Hu _ Hv. unfold wind_speed_direction, py_sqr.
    destruct (proj1 (as_number_is_number u) Hu) as [a Ea].
    rewrite Ea, (proj2 (as_number_is_number v) Hv). reflexivity.
Qed.

Lemma small_within (n bound : Z) :
  (Z.abs n <=? bound)%Z = true -> Rabs (IZR n) <= IZR bound.
Proof.
  intros H. apply Z.leb_le in H. rewrite <- abs_IZR. apply IZR_le. exact H.
Qed.

Lemma wind_speed_direction_domain_witness :
  (exists speed direction,
      wind_speed_direction (PyBool true) (PyNum (Int 2))
      = Ok (speed, direction))
  /\ wind_speed_direction (PyStr "3") (PyNum (Int 2)) = Raise TypeError
  /\ wind_speed_direction (PyNum (Int 2)) PyNone = Raise TypeError.
Proof.
  split; [| split].
  - apply (proj1 (wind_speed_direction_domain (PyBool true) (PyNum (Int 2))));
      try reflexivity; try exact I.
    apply (small_within 2). reflexivity.
  - apply (proj1 (proj2 (wind_speed_direction_domain
                           (PyStr "3") (PyNum (Int 2))))).
    reflexivity.
  - apply (proj2 (proj2 (wind_speed_direction_domain (PyNum (Int 2)) PyNone)));
      try reflexivity.
    apply (small_within 2). reflexivity.
Defined.

(** ** More on compass labels *)

Lemma py_round_add_even (x : R) (n : Z) :
  Z.even n = true -> py_round (x + IZR n) = (py_round x + n)%Z.
Proof.
  intros Hn. unfold py_round. rewrite Zfloor_addz, plus_IZR.
  replace (x + IZR n - (IZR (Zfloor x) + IZR n)) with (x - IZR (Zfloor x))
    by ring.
  rewrite Z.even_add, Hn.
  destruct (Rlt_dec (x - IZR (Zfloor x)) (1 / 2)); [reflexivity|].
  destruct (Rlt_dec (1 / 2) (x - IZR (Zfloor x))); [lia|].
  destruct (Z.even (Zfloor x)); simpl; lia.
Qed.

(** X6: the label does not change when whole turns are added to or taken
    from the bearing: negative bearings and bearings of 360 degrees and
    more are labelled like the bearing in [0, 360) they stand for. *)
Theorem deg_to_compass_periodic (a : number) (turns : Z) :
  deg_to_compass (PyNum (Float (to_R a + 360 * IZR turns)))
  = deg_to_compass (PyNum a).
Proof.
  unfold deg_to_compass. cbn [as_number rbind to_R].
  replace ((to_R a + 360 * IZR turns) / 22.5)
    with (to_R a / 22.5 + IZR (16 * turns)) by (rewrite mult_IZR; lra).
  rewrite py_round_add_even.
  - rewrite Z.mul_comm, Z_mod_plus_full. reflexivity.
  - rewrite Z.even_mul. reflexivity.
Qed.

Lemma py_round_tie (k : Z) :
  py_round (IZR k + 1 / 2) = if Z.even k then k else (k + 1)%Z.
Proof.
  unfold py_round. rewrite (Zfloor_eq k) by lra.
  destruct (Rlt_dec (IZR k + 1 / 2 - IZR k) (1 / 2)); [lra|].
  destruct (Rlt_dec (1 / 2) (IZR k + 1 / 2 - IZR k)); [lra|].
  reflexivity.
Qed.

(** X7: each label owns the bearings less than 11.25 degrees away from its
    own (22.5 degrees times its index, up to whole turns); a bearing exactly
    half-way between two labels gets the one with the even index. *)
Theorem deg_to_compass_sectors (a : number) (k : Z) :
  (Rabs (to_R a - 22.5 * IZR k) < 11.25 ->
   deg_to_compass (PyNum a) = list_index dirs (k mod 16)%Z)
  /\ (to_R a = 22.5 * IZR k + 11.25 ->
      deg_to_compass (PyNum a)
      = list_index dirs ((if Z.even k then k else k + 1) mod 16)%Z).
Proof.
  split.
  - intros H. apply Rabs_def2 in H. destruct H as [H1 H2].
    apply deg_to_compass_at. split.
    + apply Rmult_lt_reg_r with (r := 22.5); [lra|].
      replace (to_R a / 22.5 * 22.5) with (to_R a) by (field; lra). lra.
    + apply Rmult_lt_reg_r with (r := 22.5); [lra|].
      replace (to_R a / 22.5 * 22.5) with (to_R a) by (field; lra). lra.
  - intros H. unfold deg_to_compass. cbn [as_number rbind].
    replace (to_R a / 22.5) with (IZR k + 1 / 2) by (rewrite H; lra).
    rewrite py_round_tie. reflexivity.
Qed.

Lemma deg_to_compass_sectors_witness :
  deg_to_compass (PyNum (Float 50)) = Ok "NE"
  /\ deg_to_compass (PyNum (Float 11.25)) = Ok "N"
  /\ deg_to_compass (PyNum (Float 33.75)) = Ok "NE".
Proof.
  split; [| split].
  - apply (proj1 (deg_to_compass_sectors (Float 50) 2)).
    simpl. apply Rabs_def1; lra.
  - apply (proj2 (deg_to_compass_sectors (Float 11.25) 0)). simpl. lra.
  - apply (proj2 (deg_to_compass_sectors (Float 33.75) 1)). simpl. lra.
Defined.

(** X8: [deg_to_compass] returns one of its sixteen labels for every
    number of magnitude up to 1e300 (booleans count), and raises [TypeError]
    for a null, a string, a list or a dictionary; it never indexes its list
    out of range.  The sixteen bearings 0, 22.5, ..., 337.5 get the sixteen
    labels N, NNE, ..., NNW in this order. *)
Theorem deg_to_compass_domain (v : pyval) :
  (is_number v = true -> within (10 ^ 300) v ->
   exists label, deg_to_compass v = Ok label /\ In label dirs)
  /\ (is_number v = false -> deg_to_compass v = Raise TypeError)
  /\ map (fun k => deg_to_compass (PyNum (Float (22.5 * IZR k))))
       [0; 1; 2; 3; 4; 5; 6; 7; 8; 9; 10; 11; 12; 13; 14; 15]%Z
     = map Ok ["N"; "NNE"; "NE"; "ENE"; "E"; "ESE"; "SE"; "SSE";
               "S"; "SSW"; "SW"; "WSW"; "W"; "WNW"; "NW"; "NNW"].
Proof.
  split; [| split].
  - intros H _.
    destruct (proj1 (as_number_is_number v) H) as [a Ea].
    destruct (deg_to_compass_total a) as [_ [label [H1 H2]]].
    exists label. split; [| exact (nth_error_In _ _ H2)].
    unfold deg_to_compass in *. rewrite Ea. simpl in H1. exact H1.
  - intros H. unfold deg_to_compass.
    rewrite (proj2 (as_number_is_number v) H). reflexivity.
  - cbn [map].
    repeat match goal with
           | |- context [deg_to_compass (PyNum (Float (22.5 * IZR ?k)))] =>
               rewrite (compass_of_index (22.5 * IZR k) k eq_refl)
           end.
    reflexivity.
Qed.

Lemma deg_to_compass_domain_witness :
  (exists label, deg_to_compass (PyNum (Int (- 725))) = Ok label
                 /\ In label dirs)
  /\ deg_to_compass PyNone = Raise TypeError.
Proof.
  split.
  - apply (proj1 (deg_to_compass_domain (PyNum (Int (- 725)))));
      [reflexivity | apply (small_within (- 725)); reflexivity].
  - apply (proj1 (proj2 (deg_to_compass_domain PyNone))). reflexivity.
Defined.

(** ** Series with samples that are not numbers *)

Lemma comprehension_length {A B : Type} (f : A -> result B) (xs : list A)
    (ys : list B) :
  comprehension f xs = Ok ys -> List.length ys = List.length xs.
Proof.
  revert ys. induction xs as [| x xs IH]; intros ys H; simpl in H.
  - injection H as <-. reflexivity.
  - destruct (f x) as [y | e]; [| discriminate]. simpl in H.
    destruct (comprehension f xs) as [ys' | e]; [| discriminate].
    injection H as <-. simpl. f_equal. apply IH. reflexivity.
Qed.

Lemma comprehension_ok {A B : Type} (f : A -> result B) (xs : list A) :
  (forall x, In x xs -> exists y, f x = Ok y) ->
  exists ys, comprehension f xs = Ok ys.
Proof.
  induction xs as [| x xs IH]; intros H; simpl.
  - eexists. reflexivity.
  - destruct (H x (or_introl eq_refl)) as [y ->].
    destruct IH as [ys ->]; [intros z Hz; apply H; right; exact Hz|].
    eexists. reflexivity.
Qed.

Lemma comprehension_raises {A B : Type} (f : A -> result B) (xs : list A)
    (e : exn) :
  (forall x, In x xs -> (exists y, f x = Ok y) \/ f x = Raise e) ->
  (exists x, In x xs /\ f x = Raise e) ->
  comprehension f xs = Raise e.
Proof.
  induction xs as [| x xs IH]; intros Hall [z [Hin Hz]].
  - destruct Hin.
  - simpl. destruct (Hall x (or_introl eq_refl)) as [[y Hy] | Hx].
    + rewrite Hy. simpl. rewrite IH; [reflexivity | |].
      * intros w Hw. apply Hall. right. exact Hw.
      * destruct Hin as [-> | Hin]; [congruence|]. exists z. tauto.
    + rewrite Hx. reflexivity.
Qed.

Lemma kelvin_to_celsius_domain (t : pyval) :
  (is_sample t = true -> exists c, kelvin_to_celsius t = Ok c)
  /\ (is_sample t = false -> kelvin_to_celsius t = Raise TypeError).
Proof.
  destruct t as [| b | a | s | l | d]; simpl; split; intros H;
    try discriminate; try reflexivity; eexists; reflexivity.
Qed.

(** X9: on a list whose numbers have a magnitude up to 1e300, the
    temperature conversion succeeds, with a list of the same length, exactly
    when every element is a null or a number (booleans count as numbers);
    with any other element (a string, a list, an object) it raises
    [TypeError], as it does on a value that is no series at all (a null, a
    number). *)
Theorem temps_c_of_domain (temps_raw : list pyval) :
  Forall (within (10 ^ 300)) temps_raw ->
  (forallb is_sample temps_raw = true ->
   exists temps_c,
     temps_c_of (PyList temps_raw) = Ok (PyList temps_c)
     /\ List.length temps_c = List.length temps_raw)
  /\ (forallb is_sample temps_raw = false ->
      temps_c_of (PyList temps_raw) = Raise TypeError)
  /\ temps_c_of PyNone = Raise TypeError
  /\ (forall a, temps_c_of (PyNum a) = Raise TypeError).
Proof.
  intros _.
  split; [| split; [| split; [reflexivity | reflexivity]]].
  - intros H. unfold temps_c_of. cbn [py_iter rbind].
    destruct (comprehension_ok kelvin_to_celsius temps_raw) as [cs E].
    + intros t Ht. apply (proj1 (kelvin_to_celsius_domain t)).
      rewrite forallb_forall in H. apply H. exact Ht.
    + rewrite E. exists cs. split; [reflexivity|].
      apply (comprehension_length _ _ _ E).
  - intros H. unfold temps_c_of. cbn [py_iter rbind].
    rewrite (comprehension_raises kelvin_to_celsius temps_raw TypeError).
    + reflexivity.
    + intros t _. destruct (is_sample t) eqn:E.
      * left. apply (proj1 (kelvin_to_celsius_domain t) E).
      * right. apply (proj2 (kelvin_to_celsius_domain t) E).
    + assert (Hex : existsb (fun t => negb (is_sample t)) temps_raw = true).
      { clear - H. induction temps_raw as [| t l IH]; simpl in *;
          [discriminate|].
        destruct (is_sample t); simpl in *; [apply IH; exact H | reflexivity]. }
      apply existsb_exists in Hex. destruct Hex as [t [Hin Ht]].
      exists t. split; [exact Hin|].
      apply (proj2 (kelvin_to_celsius_domain t)).
      destruct (is_sample t); [discriminate | reflexivity].
Qed.

Lemma temps_c_of_domain_witness :
  (exists temps_c,
      temps_c_of (PyList [PyNum (Int 280); PyNone; PyBool true])
      = Ok (PyList temps_c)
      /\ List.length temps_c = 3%nat)
  /\ temps_c_of (PyList [PyNum (Int 280); PyStr "281.5"]) = Raise TypeError.
Proof.
  split.
  - apply (proj1 (temps_c_of_domain
                    [PyNum (Int 280); PyNone; PyBool true]
                    ltac:(repeat (apply Forall_cons;
                                  [first [exact I
                                         | apply (small_within 280);
                                           reflexivity] |]);
                          apply Forall_nil))).
    reflexivity.
  - apply (proj1 (proj2 (temps_c_of_domain
                           [PyNum (Int 280); PyStr "281.5"]
                           ltac:(repeat (apply Forall_cons;
                                  [first [exact I
                                         | apply (small_within 280);
                                           reflexivity] |]);
                          apply Forall_nil)))).
    reflexivity.
Defined.

(** X10: the precipitation conversion is laxer: it does not reject a string
    or a list among the samples but repeats it 1000 times, as Python's [*]
    does, and it raises [TypeError] only on an object. *)
Theorem metres_to_mm_not_numbers :
  (forall s, metres_to_mm (PyStr s)
             = Ok (PyStr (String.concat "" (repeat s 1000))))
  /\ (forall l, metres_to_mm (PyList l)
                = Ok (PyList (List.concat (repeat l 1000))))
  /\ (forall d, metres_to_mm (PyDict d) = Raise TypeError)
  /\ (forall vals_raw,
      (forall v, In v vals_raw -> forall d, v <> PyDict d) ->
      exists vals_mm,
        vals_mm_of (PyList vals_raw) = Ok (PyList vals_mm)
        /\ List.length vals_mm = List.length vals_raw).
Proof.
  split; [reflexivity | split; [reflexivity | split; [reflexivity|]]].
  intros vals_raw H. unfold vals_mm_of. cbn [py_iter rbind].
  destruct (comprehension_ok metres_to_mm vals_raw) as [ms E].
  - intros v Hv. specialize (H v Hv).
    destruct v as [| b | a | s | l | d]; try (eexists; reflexivity).
    exfalso. apply (H d). reflexivity.
  - rewrite E. exists ms. split; [reflexivity|].
    apply (comprehension_length _ _ _ E).
Qed.

Lemma metres_to_mm_not_numbers_witness :
  exists vals_mm,
    vals_mm_of (PyList [PyNum (Float 0.001); PyStr "0.002"])
    = Ok (PyList vals_mm)
    /\ List.length vals_mm = 2%nat.
Proof.
  apply (proj2 (proj2 (proj2 metres_to_mm_not_numbers))).
  intros v [<- | [<- | []]] d; discriminate.
Defined.

(** ** The loop of the wind tab *)

Lemma wind_loop_numbers (uvs : list (number * number)) (speeds wind_dirs : list R) :
  wind_loop (map (fun uv => (PyNum (fst uv), PyNum (snd uv))) uvs)
    speeds wind_dirs
  = Ok ((speeds ++ map (fun uv => fst (wind_of uv)) uvs)%list,
        (wind_dirs ++ map (fun uv => snd (wind_of uv)) uvs)%list).
Proof.
  revert speeds wind_dirs.
  induction uvs as [| [a b] uvs IH]; intros speeds wind_dirs; simpl.
  - rewrite !app_nil_r. reflexivity.
  - rewrite wind_speed_direction_numbers. simpl.
    rewrite IH, <- !app_assoc. reflexivity.
Qed.

Lemma combine_map_pairs (us vs : list number) :
  combine (map PyNum us) (map PyNum vs)
  = map (fun uv => (PyNum (fst uv), PyNum (snd uv))) (combine us vs).
Proof.
  revert vs. induction us as [| a us IH]; intros vs; simpl.
  - reflexivity.
  - destruct vs as [| b vs]; simpl; [reflexivity|]. rewrite IH. reflexivity.
Qed.

(** X11: from two series of numbers the loop of the wind tab gets one
    speed and one direction for each hour both series cover, in order; the
    samples that the longer series has beyond the shorter one are dropped
    without notice. *)
Theorem wind_loop_zip (us vs : list number) :
  exists speeds wind_dirs,
    rbind (py_zip (PyList (map PyNum us)) (PyList (map PyNum vs)))
      (fun pairs => wind_loop pairs [] [])
    = Ok (speeds, wind_dirs)
    /\ List.length speeds = Nat.min (List.length us) (List.length vs)
    /\ List.length wind_dirs = Nat.min (List.length us) (List.length vs)
    /\ (forall i a b,
        nth_error us i = Some a -> nth_error vs i = Some b ->
        nth_error speeds i = Some (fst (wind_of (a, b)))
        /\ nth_error wind_dirs i = Some (snd (wind_of (a, b)))).
Proof.
  exists (map (fun uv => fst (wind_of uv)) (combine us vs)),
    (map (fun uv => snd (wind_of uv)) (combine us vs)).
  split; [| split; [| split]].
  - unfold py_zip. cbn [py_iter rbind].
    rewrite combine_map_pairs, wind_loop_numbers. reflexivity.
  - rewrite length_map. apply length_combine.
  - rewrite length_map. apply length_combine.
  - intros i a b Ha Hb.
    assert (E : nth_error (combine us vs) i = Some (a, b)).
    { clear - Ha Hb. revert vs i Ha Hb.
      induction us as [| x us IH]; intros vs i Ha Hb;
        [destruct i; discriminate|].
      destruct vs as [| y vs]; [destruct i; discriminate|].
      destruct i as [| i]; simpl in *.
      - injection Ha as ->. injection Hb as ->. reflexivity.
      - apply IH; assumption. }
    rewrite !nth_error_map, E. split; reflexivity.
Qed.

Lemma wind_loop_zip_witness :
  exists speeds wind_dirs,
    rbind (py_zip (PyList [PyNum (Float 3); PyNum (Float 1)])
                  (PyList [PyNum (Float 4)]))
      (fun pairs => wind_loop pairs [] [])
    = Ok (speeds, wind_dirs)
    /\ List.length speeds = 1%nat
    /\ nth_error speeds 0 = Some (fst (wind_of (Float 3, Float 4))).
Proof.
  destruct (wind_loop_zip [Float 3; Float 1] [Float 4])
    as [speeds [wind_dirs [H1 [H2 [_ H4]]]]].
  exists speeds, wind_dirs.
  split; [exact H1|]. split; [exact H2|].
  exact (proj1 (H4 0%nat (Float 3) (Float 4) eq_refl eq_refl)).
Defined.

(** ** Drawing a series *)

Section Plot.

Variable P : platform.



End Plot.


(** ** A tab with data *)

Lemma list_index_last {A : Type} (l : list A) (x : A) :
  list_index (l ++ [x]) (-1) = Ok x.
Proof.
  unfold list_index. rewrite length_app. simpl List.length.
  replace (-1 <? 0)%Z with true by reflexivity.
  replace (0 <=? -1 + Z.of_nat (List.length l + 1))%Z with true
    by (symmetry; apply Z.leb_le; lia).
  replace (-1 + Z.of_nat (List.length l + 1)
           <? Z.of_nat (List.length l + 1))%Z with true
    by (symmetry; apply Z.ltb_lt; lia).
  simpl andb. cbv iota.
  replace (Z.to_nat (-1 + Z.of_nat (List.length l + 1))) with (List.length l)
    by lia.
  rewrite nth_error_app2 by lia. rewrite Nat.sub_diag. reflexivity.
Qed.

Lemma list_index_empty {A : Type} (i : Z) :
  list_index (@nil A) i = Raise IndexError.
Proof.
  unfold list_index. simpl.
  destruct (i <? 0)%Z eqn:E.
  - replace (0 <=? i + 0)%Z with false; [reflexivity|].
    symmetry. apply Z.leb_gt. apply Z.ltb_lt in E. lia.
  - destruct (0 <=? i)%Z; simpl; [| reflexivity].
    replace (i <? 0)%Z with false. reflexivity.
Qed.

Lemma comprehension_app {A B : Type} (f : A -> result B) (xs : list A)
    (x : A) (ys : list B) :
  comprehension f (xs ++ [x]) = Ok ys ->
  exists ys' y, ys = (ys' ++ [y])%list /\ f x = Ok y
                /\ comprehension f xs = Ok ys'.
Proof.
  revert ys. induction xs as [| a xs IH]; intros ys H; simpl in H.
  - destruct (f x) as [y | e] eqn:E; [| discriminate]. simpl in H.
    injection H as <-. exists [], y. repeat split; reflexivity.
  - destruct (f a) as [b | e] eqn:Ea; [| discriminate]. simpl in H.
    destruct (comprehension f (xs ++ [x])) as [zs | e] eqn:E; [| discriminate].
    injection H as <-.
    destruct (IH zs eq_refl) as [ys' [y [-> [Hy Hc]]]].
    exists (b :: ys'), y. split; [reflexivity|]. split; [exact Hy|].
    simpl. rewrite Ea, Hc. reflexivity.
Qed.

Section TabWithData.

Variable P : platform.
Variable S : sidebar.

Let reply (var : string) : response :=
  forecast_reply P (api_key S) (lat S) (lon S) var (hours S).

(** X13: the temperature tab on a reply with its times and its series:
    one chart of the converted series against the local times, the note on
    units, and the latest forecast, which is the last sample less 273.15 at
    the last time. *)
Theorem tab_temperature_with_data (d h : list (string * pyval))
    (times : list pyval) (last_time : pyval)
    (temps_raw : list (option number)) (k : number)
    (local_times : list pyval) :
  status_code (reply "2m_temperature") = 200%Z ->
  json (reply "2m_temperature") = Ok (PyDict d) ->
  lookup "hourly" d = Some (PyDict h) ->
  lookup "time" h = Some (PyList (times ++ [last_time])) ->
  lookup "2m_temperature" h = Some (of_series (temps_raw ++ [Some k])) ->
  comprehension (local_label P) (times ++ [last_time]) = Ok local_times ->
  ax_plot P (PyList local_times)
    (of_series (map spec_celsius (temps_raw ++ [Some k]))) = Ok tt ->
  exists at_,
    local_label P last_time = Ok at_
    /\ tab_temperature P S
       = ([st_subheader "Temperature Forecast";
           st_pyplot
             (line_chart (PyList local_times)
                (of_series (map spec_celsius (temps_raw ++ [Some k])))
                "Temperature (°C)" "red");
           st_info "ℹ️ Temperature is at **2 m AGL** and displayed in **°C**.";
           st_success ("Latest Forecast: " ++ format_f P 1 (to_R k - 273.15)
                       ++ " °C at " ++ py_str P at_)],
          Ok tt).
Proof.
  intros Hs Hj Hd Ht Hv Hl Hp.
  destruct (comprehension_app _ _ _ _ Hl) as [labels [at_ [-> [Hat _]]]].
  exists at_. split; [exact Hat|].
  unfold tab_temperature. unfold reply in Hs, Hj.
  rewrite (fetch_forecast_ok P _ _ _ _ _ Hs), Hj.
  cbn [emit lift bind app]. rewrite (lookup_some_truthy _ _ _ Hd).
  cbn [py_getitem]. rewrite Hd. cbn [lift bind app py_get]. rewrite Ht, Hv.
  cbn [lift bind app]. rewrite temps_c_of_series. cbn [lift bind app].
  unfold plot_time_series.
  replace (py_truthy (PyList (times ++ [last_time]))) with true
    by (destruct times; reflexivity).
  replace (py_truthy (of_series (map spec_celsius (temps_raw ++ [Some k]))))
    with true by (destruct temps_raw; reflexivity).
  cbn [negb orb py_iter lift bind app]. rewrite Hl. cbn [lift bind app].
  rewrite Hp. cbn [lift bind app emit ret].
  replace (py_truthy (of_series (map spec_celsius (temps_raw ++ [Some k]))))
    with true by (destruct temps_raw; reflexivity).
  unfold of_series. rewrite !map_app.
  cbn [map spec_celsius option_map of_sample py_index].
  rewrite !list_index_last. reflexivity.
Qed.

(** X14: the wind tab on replies with the times and both components: one
    chart of the speeds, the note on units, an arrow at the last direction
    with its compass label, and the latest forecast, all from the last hour
    both series cover. *)
Theorem tab_wind_with_data (du dv hu hv : list (string * pyval))
    (times : list pyval) (last_time : pyval) (us vs : list number)
    (init : list (number * number)) (a b : number)
    (local_times : list pyval) :
  let speeds := map (fun uv => fst (wind_of uv)) (combine us vs) in
  let last_speed := fst (wind_of (a, b)) in
  let last_dir := snd (wind_of (a, b)) in
  status_code (reply u_var) = 200%Z -> json (reply u_var) = Ok (PyDict du) ->
  status_code (reply v_var) = 200%Z -> json (reply v_var) = Ok (PyDict dv) ->
  lookup "hourly" du = Some (PyDict hu) ->
  lookup "hourly" dv = Some (PyDict hv) ->
  lookup "time" hu = Some (PyList (times ++ [last_time])) ->
  lookup u_var hu = Some (PyList (map PyNum us)) ->
  lookup v_var hv = Some (PyList (map PyNum vs)) ->
  combine us vs = (init ++ [(a, b)])%list ->
  comprehension (local_label P) (times ++ [last_time]) = Ok local_times ->
  ax_plot P (PyList local_times) (py_floats speeds) = Ok tt ->
  exists at_ label,
    local_label P last_time = Ok at_
    /\ deg_to_compass (PyNum (Float last_dir)) = Ok label
    /\ In label dirs
    /\ tab_wind P S
       = ([st_subheader "Wind Forecast (100 m AGL)";
           st_pyplot (line_chart (PyList local_times) (py_floats speeds)
                        "Wind Speed (kt)" "purple");
           st_info ("ℹ️ Wind is shown at **100 m AGL**, with speeds in **knots (kt)** "
                    ++ "and directions following the **meteorological convention** (0° = North).");
           st_pyplot (polar_arrow (math_radians last_dir)
                        ("Latest Wind Direction: " ++ format_f P 0 last_dir
                         ++ "° (" ++ label ++ ")"));
           st_success ("Latest Forecast: " ++ format_f P 1 last_speed
                       ++ " kt from " ++ format_f P 0 last_dir
                       ++ "° (" ++ label ++ ") at " ++ py_str P at_)],
          Ok tt).
Proof.
  intros speeds last_speed last_dir
    Hsu Hju Hsv Hjv Hdu Hdv Ht Hu Hv Hc Hl Hp.
  destruct (comprehension_app _ _ _ _ Hl) as [labels [at_ [-> [Hat _]]]].
  destruct (deg_to_compass_total (Float last_dir)) as [_ [label [Hlab Hnth]]].
  exists at_, label.
  split; [exact Hat|]. split; [exact Hlab|].
  split; [exact (nth_error_In _ _ Hnth)|].
  unfold tab_wind. unfold reply in Hsu, Hju, Hsv, Hjv.
  rewrite (fetch_forecast_ok P _ _ _ _ _ Hsu), (fetch_forecast_ok P _ _ _ _ _ Hsv).
  rewrite Hju, Hjv. cbn [emit lift bind app].
  rewrite (lookup_some_truthy _ _ _ Hdu), (lookup_some_truthy _ _ _ Hdv).
  cbn [andb py_getitem]. rewrite Hdu, Hdv.
  cbn [lift bind app py_get]. rewrite Ht, Hu, Hv.
  cbn [lift bind app py_zip py_iter rbind].
  rewrite combine_map_pairs, wind_loop_numbers. cbn [lift bind app].
  fold speeds.
  assert (Es : speeds = (map (fun uv => fst (wind_of uv)) init
                         ++ [last_speed])%list).
  { unfold speeds. rewrite Hc, map_app. reflexivity. }
  assert (Ed : map (fun uv => snd (wind_of uv)) (combine us vs)
               = (map (fun uv => snd (wind_of uv)) init ++ [last_dir])%list).
  { rewrite Hc, map_app. reflexivity. }
  rewrite Ed.
  assert (Tv : py_truthy (py_floats speeds) = true).
  { rewrite Es. unfold py_floats. rewrite map_app.
    destruct (map _ (map _ init)); reflexivity. }
  assert (Td : py_truthy
                 (py_floats (map (fun uv => snd (wind_of uv)) init
                             ++ [last_dir])) = true).
  { unfold py_floats. rewrite map_app.
    destruct (map _ (map _ init)); reflexivity. }
  unfold plot_time_series.
  replace (py_truthy (PyList (times ++ [last_time]))) with true
    by (destruct times; reflexivity).
  rewrite Tv. cbn [negb orb py_iter lift bind app]. rewrite Hl.
  cbn [lift bind app]. rewrite Hp. cbn [lift bind app emit ret].
  rewrite Tv, Td. cbn [andb]. rewrite list_index_last.
  cbn [lift bind app]. rewrite Hlab. cbn [lift bind app emit].
  assert (Ei : py_index (py_floats speeds) (-1)
               = Ok (PyNum (Float last_speed))).
  { rewrite Es. unfold py_floats. rewrite map_app.
    cbn [map py_index]. apply list_index_last. }
  rewrite Ei. cbn [lift bind app py_format_f as_number rbind to_R py_index].
  rewrite list_index_last. reflexivity.
Qed.

End TabWithData.

Lemma tab_temperature_with_data_witness :
  exists at_,
    local_label fair_machine (PyStr "2025-01-01T01:00:00") = Ok at_
    /\ tab_temperature fair_machine dover
       = ([st_subheader "Temperature Forecast";
           st_pyplot
             (line_chart (PyList [PyStr "1735689600"; PyStr "1735693200"])
                (of_series (map spec_celsius
                              ([Some (Float 280)] ++ [Some (Float 281.5)])))
                "Temperature (°C)" "red");
           st_info "ℹ️ Temperature is at **2 m AGL** and displayed in **°C**.";
           st_success ("Latest Forecast: "
                       ++ format_f fair_machine 1 (281.5 - 273.15)
                       ++ " °C at " ++ py_str fair_machine at_)],
          Ok tt).
Proof.
  apply (tab_temperature_with_data fair_machine dover
           [("hourly", PyDict [("time", two_hours);
                               ("2m_temperature",
                                PyList [PyNum (Float 280);
                                        PyNum (Float 281.5)])])]
           [("time", two_hours);
            ("2m_temperature",
             PyList [PyNum (Float 280); PyNum (Float 281.5)])]
           [PyStr "2025-01-01T00:00:00"] (PyStr "2025-01-01T01:00:00")
           [Some (Float 280)] (Float 281.5)
           [PyStr "1735689600"; PyStr "1735693200"]);
    reflexivity.
Defined.

Lemma tab_wind_with_data_witness :
  exists at_ label,
    local_label fair_machine (PyStr "2025-01-01T01:00:00") = Ok at_
    /\ deg_to_compass
         (PyNum (Float (snd (wind_of (Float 281.5, Float 281.5))))) = Ok label
    /\ In label dirs
    /\ outcome (tab_wind fair_machine dover) = Ok tt.
Proof.
  destruct (tab_wind_with_data fair_machine dover
           [("hourly", PyDict [("time", two_hours);
                               (u_var, PyList [PyNum (Float 280);
                                               PyNum (Float 281.5)])])]
           [("hourly", PyDict [("time", two_hours);
                               (v_var, PyList [PyNum (Float 280);
                                               PyNum (Float 281.5)])])]
           [("time", two_hours);
            (u_var, PyList [PyNum (Float 280); PyNum (Float 281.5)])]
           [("time", two_hours);
            (v_var, PyList [PyNum (Float 280); PyNum (Float 281.5)])]
           [PyStr "2025-01-01T00:00:00"] (PyStr "2025-01-01T01:00:00")
           [Float 280; Float 281.5] [Float 280; Float 281.5]
           [(Float 280, Float 280)] (Float 281.5) (Float 281.5)
           [PyStr "1735689600"; PyStr "1735693200"]
           eq_refl eq_refl eq_refl eq_refl eq_refl eq_refl eq_refl eq_refl
           eq_refl eq_refl eq_refl eq_refl)
    as [at_ [label [H1 [H2 [H3 H4]]]]].
  exists at_, label.
  split; [exact H1|]. split; [exact H2|]. split; [exact H3|].
  rewrite H4. reflexivity.
Defined.

(** ** Replies without a forecast in them *)

Section OddReplies.

Variable P : platform.
Variable S : sidebar.

Let reply (var : string) : response :=
  forecast_reply P (api_key S) (lat S) (lon S) var (hours S).

Ltac got_reply Hs Hj :=
  unfold reply in Hs, Hj; rewrite (fetch_forecast_ok P _ _ _ _ _ Hs), Hj;
  cbn [emit lift bind app].

(** X15: a reply with status 200 and an empty body (an empty object or
    list, a null, zero, false, an empty string) leaves a tab with its
    heading alone: no chart, no notice that data is missing, no error. *)
Theorem tabs_silent_on_empty_body (body : pyval) :
  py_truthy body = false ->
  (status_code (reply "2m_temperature") = 200%Z ->
   json (reply "2m_temperature") = Ok body ->
   tab_temperature P S = ([st_subheader "Temperature Forecast"], Ok tt))
  /\ (status_code (reply "relative_humidity_2m") = 200%Z ->
      json (reply "relative_humidity_2m") = Ok body ->
      tab_humidity P S = ([st_subheader "Humidity Forecast"], Ok tt))
  /\ (status_code (reply "total_precipitation") = 200%Z ->
      json (reply "total_precipitation") = Ok body ->
      tab_precipitation P S = ([st_subheader "Precipitation Forecast"], Ok tt))
  /\ (forall v,
      status_code (reply u_var) = 200%Z -> json (reply u_var) = Ok body ->
      status_code (reply v_var) = 200%Z -> json (reply v_var) = Ok v ->
      tab_wind P S = ([st_subheader "Wind Forecast (100 m AGL)"], Ok tt)).
Proof.
  intros Hb. split; [| split; [| split]].
  - intros Hs Hj. unfold tab_temperature. got_reply Hs Hj.
    rewrite Hb. reflexivity.
  - intros Hs Hj. unfold tab_humidity. got_reply Hs Hj.
    rewrite Hb. reflexivity.
  - intros Hs Hj. unfold tab_precipitation. got_reply Hs Hj.
    rewrite Hb. reflexivity.
  - intros v Hsu Hju Hsv Hjv. unfold tab_wind.
    unfold reply in Hsu, Hju, Hsv, Hjv.
    rewrite (fetch_forecast_ok P _ _ _ _ _ Hsu),
      (fetch_forecast_ok P _ _ _ _ _ Hsv), Hju, Hjv.
    cbn [emit lift bind app]. rewrite Hb. reflexivity.
Qed.

(** X16: a reply with status 200 whose body is an object without the key
    "hourly" ends a tab with [KeyError]; a body that is no object (a list, a
    string, a number) ends it with [TypeError]; and an "hourly" that is no
    object ends it with [AttributeError].  In each case the heading is all
    that is shown. *)
Theorem tab_temperature_odd_body (body : pyval) :
  status_code (reply "2m_temperature") = 200%Z ->
  json (reply "2m_temperature") = Ok body ->
  py_truthy body = true ->
  (forall d, body = PyDict d -> lookup "hourly" d = None ->
             tab_temperature P S
             = ([st_subheader "Temperature Forecast"], Raise KeyError))
  /\ ((forall d, body <> PyDict d) ->
      tab_temperature P S
      = ([st_subheader "Temperature Forecast"], Raise TypeError))
  /\ (forall d h, body = PyDict d -> lookup "hourly" d = Some h ->
                  (forall d', h <> PyDict d') ->
                  tab_temperature P S
                  = ([st_subheader "Temperature Forecast"],
                     Raise AttributeError)).
Proof.
  intros Hs Hj Ht. unfold tab_temperature. got_reply Hs Hj. rewrite Ht.
  split; [| split].
  - intros d -> Hd. cbn [py_getitem]. rewrite Hd. reflexivity.
  - intros Hnd. destruct body as [| b | a | s | l | d]; try reflexivity.
    exfalso. apply (Hnd d). reflexivity.
  - intros d h -> Hd Hnh. cbn [py_getitem]. rewrite Hd.
    destruct h as [| b | a | s | l | d']; try reflexivity.
    exfalso. apply (Hnh d'). reflexivity.
Qed.

End OddReplies.

Lemma tabs_silent_on_empty_body_witness :
  tab_temperature (machine (serve_body (PyDict [])) 0) dover
  = ([st_subheader "Temperature Forecast"], Ok tt).
Proof.
  apply (proj1 (tabs_silent_on_empty_body (machine (serve_body (PyDict [])) 0)
                  dover (PyDict []) eq_refl)); reflexivity.
Defined.

Lemma tab_temperature_odd_body_witness :
  tab_temperature
    (machine (serve_body (PyDict [("error", PyStr "quota")])) 0) dover
  = ([st_subheader "Temperature Forecast"], Raise KeyError).
Proof.
  apply (proj1 (tab_temperature_odd_body
                  (machine (serve_body (PyDict [("error", PyStr "quota")])) 0)
                  dover (PyDict [("error", PyStr "quota")])
                  eq_refl eq_refl eq_refl)
           [("error", PyStr "quota")] eq_refl eq_refl).
Defined.

(** ** The usage request that goes wrong *)

Section OddUsage.

Variable P : platform.
Variable S : sidebar.

(** X17: when the usage request is not answered with status 200, the
    overview shows a warning with the status code (and not the body text),
    no report, and raises nothing. *)
Theorem tab_overview_failed :
  api_key S <> "" ->
  status_code (usage_reply P S) <> 200%Z ->
  tab_overview P S
  = ([st_subheader "Welcome to Zeus Forecast Dashboard 🌦";
      st_write welcome;
      st_warning ("Could not fetch API usage (status "
                  ++ str_int (status_code (usage_reply P S)) ++ ")")],
     Ok tt).
Proof.
  intros Hk Hs. unfold tab_overview.
  apply String.eqb_neq in Hk. apply Z.eqb_neq in Hs. rewrite Hk, Hs.
  reflexivity.
Qed.

(** X18: a usage reply with status 200 that is not as expected ends the
    overview with [AttributeError], and no part of the report is shown: so
    it is with a body that is no object, and with a reset time that is
    neither empty nor a string. *)
Theorem tab_overview_odd_usage (body : pyval) :
  api_key S <> "" ->
  status_code (usage_reply P S) = 200%Z ->
  json (usage_reply P S) = Ok body ->
  ((forall d, body <> PyDict d) ->
   tab_overview P S
   = ([st_subheader "Welcome to Zeus Forecast Dashboard 🌦"; st_write welcome],
      Raise AttributeError))
  /\ (forall d resets_at,
      body = PyDict d -> lookup "resets_at" d = Some resets_at ->
      py_truthy resets_at = true -> (forall s, resets_at <> PyStr s) ->
      tab_overview P S
      = ([st_subheader "Welcome to Zeus Forecast Dashboard 🌦";
          st_write welcome],
         Raise AttributeError)).
Proof.
  intros Hk Hs Hj. unfold tab_overview.
  apply String.eqb_neq in Hk. rewrite Hk, Hs, Hj.
  cbn [negb Z.eqb Pos.eqb emit lift bind app].
  split.
  - intros Hnd. destruct body as [| b | a | s | l | d]; try reflexivity.
    exfalso. apply (Hnd d). reflexivity.
  - intros d resets_at -> Hl Ht Hns.
    rewrite !py_get_field_or. cbn [lift bind app].
    replace (field_or d "resets_at" PyNone) with resets_at
      by (unfold field_or; rewrite Hl; reflexivity).
    unfold reset_string. rewrite Ht.
    unfold reset_local_time.
    destruct resets_at as [| b | a | s | l | d']; try reflexivity.
    exfalso. apply (Hns s). reflexivity.
Qed.

End OddUsage.

Lemma tab_overview_failed_witness :
  tab_overview server_down dover
  = ([st_subheader "Welcome to Zeus Forecast Dashboard 🌦";
      st_write welcome;
      st_warning "Could not fetch API usage (status 503)"],
     Ok tt).
Proof.
  apply (tab_overview_failed server_down dover); discriminate.
Defined.

Lemma tab_overview_odd_usage_witness :
  tab_overview (machine (serve_usage (PyList [PyNum (Int 12)])) 0) dover
  = ([st_subheader "Welcome to Zeus Forecast Dashboard 🌦"; st_write welcome],
     Raise AttributeError)
  /\ tab_overview
       (machine (serve_usage (PyDict [("credits_used", PyNum (Int 12));
                                      ("resets_at", PyBool true)])) 0)
       dover
     = ([st_subheader "Welcome to Zeus Forecast Dashboard 🌦";
         st_write welcome],
        Raise AttributeError).
Proof.
  split.
  - apply (proj1 (tab_overview_odd_usage
                    (machine (serve_usage (PyList [PyNum (Int 12)])) 0) dover
                    (PyList [PyNum (Int 12)])
                    ltac:(discriminate) eq_refl eq_refl)).
    intros d. discriminate.
  - apply (proj2 (tab_overview_odd_usage
             (machine (serve_usage (PyDict [("credits_used", PyNum (Int 12));
                                            ("resets_at", PyBool true)])) 0)
             dover
             (PyDict [("credits_used", PyNum (Int 12));
                      ("resets_at", PyBool true)])
             ltac:(discriminate) eq_refl eq_refl)
           [("credits_used", PyNum (Int 12)); ("resets_at", PyBool true)]
           (PyBool true) eq_refl eq_refl eq_refl).
    intros s. discriminate.
Defined.

(** ** One run of the script *)

Lemma run_tabs_all_ok (tabs : list (string * ui unit)) :
  Forall (fun t => outcome (snd t) = Ok tt) tabs ->
  run_tabs tabs = (flat_map tab_events tabs, Ok tt).
Proof.
  induction tabs as [| [label [evs r]] tabs IH]; intros H.
  - reflexivity.
  - inversion H as [| t l Hr Hl]; subst. simpl in Hr. subst r.
    simpl. rewrite (IH Hl). reflexivity.
Qed.

Lemma run_tabs_first_raise (before after : list (string * ui unit))
    (label : string) (m : ui unit) (e : exn) :
  Forall (fun t => outcome (snd t) = Ok tt) before ->
  outcome m = Raise e ->
  run_tabs (before ++ (label, m) :: after)
  = ((flat_map tab_events before ++ map (in_tab label) (shown m))%list,
     Raise e).
Proof.
  induction before as [| [l [evs r]] before IH]; intros H Hm.
  - destruct m as [evs r]. simpl in Hm. subst r. simpl. reflexivity.
  - inversion H as [| t l' Hr Hl]; subst. simpl in Hr. subst r.
    simpl. rewrite (IH Hl Hm). rewrite <- app_assoc. reflexivity.
Qed.

(** X19: every name the select box offers resolves to coordinates, never
    to [KeyError]: Dover and Shaftesbury to the latitude and longitude of
    the table, both within range, and Custom to the two number inputs,
    whatever they are. *)
Theorem coordinates_of_offered (W : widgets) :
  offered W ->
  exists la lo,
    coordinates W = Ok (la, lo)
    /\ (selectbox W = "Custom" ->
        la = latitude_input W /\ lo = longitude_input W)
    /\ (selectbox W <> "Custom" ->
        In (selectbox W, Some (la, lo)) LOCATIONS
        /\ - 90 <= la <= 90 /\ - 180 <= lo <= 180).
Proof.
  intros [Hin _]. unfold coordinates.
  simpl in Hin. destruct Hin as [E | [E | [E | []]]]; rewrite <- E; simpl.
  - exists 51.1290, 1.3080. split; [reflexivity|].
    split; [discriminate|]. intros _.
    split; [left; reflexivity | lra].
  - exists 51.0050, (-2.1930). split; [reflexivity|].
    split; [discriminate|]. intros _.
    split; [right; left; reflexivity | lra].
  - exists (latitude_input W), (longitude_input W). split; [reflexivity|].
    split; [intros _; split; reflexivity|]. intros H. contradiction.
Qed.

Lemma coordinates_of_offered_witness :
  exists la lo,
    coordinates {| text_input := "secret"; selectbox := "Dover";
                   latitude_input := 52.377956; longitude_input := 4.897070;
                   slider := 1 |} = Ok (la, lo)
    /\ - 90 <= la <= 90 /\ - 180 <= lo <= 180.
Proof.
  destruct (coordinates_of_offered
              {| text_input := "secret"; selectbox := "Dover";
                 latitude_input := 52.377956; longitude_input := 4.897070;
                 slider := 1 |})
    as [la [lo [H1 [_ H3]]]].
  - split; [left; reflexivity | simpl; lia].
  - exists la, lo. split; [exact H1|].
    apply H3. discriminate.
Defined.

(** Without an API key a run shows the title and the request to enter the
    key, and stops there: nothing is shown under any tab and nothing is
    raised, whatever the rest of the sidebar holds. *)
Theorem script_without_key (P : platform) (W : widgets) :
  text_input W = "" ->
  script P W
  = ([st_title "Zeus Forecast Dashboard 🌦";
      in_page (st_warning
                 "Please enter your API key in the sidebar to load data.")],
     Ok tt).
Proof.
  intros H. unfold script. rewrite H. reflexivity.
Qed.

Lemma script_without_key_witness :
  script server_down
    {| text_input := ""; selectbox := "Dover";
       latitude_input := 52.377956; longitude_input := 4.897070; slider := 1 |}
  = ([st_title "Zeus Forecast Dashboard 🌦";
      in_page (st_warning
                 "Please enter your API key in the sidebar to load data.")],
     Ok tt).
Proof. apply script_without_key. reflexivity. Defined.

(** X20: with a key and an offered location, a run goes through the five
    tabs in order, whichever tab is open: if none raises, what each of them
    shows is on the page, the forecast tabs included; if one raises, the run
    ends with its exception, and nothing of the tabs after it is shown. *)
Theorem script_runs_the_tabs (P : platform) (W : widgets) (la lo : R) :
  let S := {| api_key := text_input W; lat := la; lon := lo;
              hours := slider W |} in
  let head :=
    [st_title "Zeus Forecast Dashboard 🌦";
     st_sidebar_info "ℹ️ App starts on the **Overview tab** so no forecast credits are used until you open a forecast tab."] in
  text_input W <> "" ->
  coordinates W = Ok (la, lo) ->
  (Forall (fun t => outcome (snd t) = Ok tt) (tabs_of P S) ->
   script P W = ((head ++ flat_map tab_events (tabs_of P S))%list, Ok tt))
  /\ (forall before label m after e,
      tabs_of P S = (before ++ (label, m) :: after)%list ->
      Forall (fun t => outcome (snd t) = Ok tt) before ->
      outcome m = Raise e ->
      script P W
      = ((head ++ flat_map tab_events before
          ++ map (in_tab label) (shown m))%list,
         Raise e)).
Proof.
  intros S head Hk Hc. unfold script.
  apply String.eqb_neq in Hk. rewrite Hk, Hc. fold S.
  split.
  - intros Hall. rewrite (run_tabs_all_ok _ Hall). reflexivity.
  - intros before label m after e Ht Hb Hm.
    rewrite Ht, (run_tabs_first_raise before after label m e Hb Hm).
    reflexivity.
Qed.

(** A null as the last temperature sample: the run ends in the temperature
    tab, and the humidity, precipitation and wind tabs stay empty. *)
Lemma script_runs_the_tabs_witness :
  exists evs,
    script temperature_null_machine
      {| text_input := "secret"; selectbox := "Dover";
         latitude_input := 52.377956; longitude_input := 4.897070;
         slider := 6 |}
    = (evs, Raise TypeError)
    /\ existsb (under_tab "💧 Humidity") evs = false
    /\ existsb (under_tab "☔ Precipitation") evs = false
    /\ existsb (under_tab "🌬 Wind") evs = false.
Proof.
  eexists. split.
  - apply (proj2 (script_runs_the_tabs temperature_null_machine
                    {| text_input := "secret"; selectbox := "Dover";
                       latitude_input := 52.377956;
                       longitude_input := 4.897070; slider := 6 |}
                    51.1290 1.3080 ltac:(discriminate) eq_refl)
             [("📋 Overview", tab_overview temperature_null_machine dover)]
             "🌡 Temperature" (tab_temperature temperature_null_machine dover)
             [("💧 Humidity", tab_humidity temperature_null_machine dover);
              ("☔ Precipitation",
               tab_precipitation temperature_null_machine dover);
              ("🌬 Wind", tab_wind temperature_null_machine dover)]
             TypeError).
    + reflexivity.
    + repeat constructor.
    + reflexivity.
  - repeat split; reflexivity.
Defined.

(** ** The humidity and precipitation tabs with data, and a null at the end *)

Lemma to_R_num_mul_int (a : number) (k : Z) :
  to_R (num_mul_int a k) = to_R a * IZR k.
Proof. destruct a as [n | x]; simpl; [apply mult_IZR | reflexivity]. Qed.

Section MoreTabsWithData.

Variable P : platform.
Variable S : sidebar.
Variables d h : list (string * pyval).
Variable times : list pyval.
Variable last_time : pyval.
Variable local_times : list pyval.

Let reply (var : string) : response :=
  forecast_reply P (api_key S) (lat S) (lon S) var (hours S).

Hypothesis Hd : lookup "hourly" d = Some (PyDict h).
Hypothesis Ht : lookup "time" h = Some (PyList (times ++ [last_time])).
Hypothesis Hl :
  comprehension (local_label P) (times ++ [last_time]) = Ok local_times.

Ltac into_plot Hs Hj Hv :=
  unfold reply in Hs, Hj; rewrite (fetch_forecast_ok P _ _ _ _ _ Hs), Hj;
  cbn [emit lift bind app]; rewrite (lookup_some_truthy _ _ _ Hd);
  cbn [py_getitem]; rewrite Hd; cbn [lift bind app py_get]; rewrite Ht, Hv;
  cbn [lift bind app].

(** X21: the humidity tab plots the series as it comes, nulls included,
    and prints the last sample without decimals at the last time. *)
Theorem tab_humidity_with_data (hums : list pyval) (k : number) :
  status_code (reply "relative_humidity_2m") = 200%Z ->
  json (reply "relative_humidity_2m") = Ok (PyDict d) ->
  lookup "relative_humidity_2m" h = Some (PyList (hums ++ [PyNum k])) ->
  ax_plot P (PyList local_times) (PyList (hums ++ [PyNum k])) = Ok tt ->
  exists at_,
    local_label P last_time = Ok at_
    /\ tab_humidity P S
       = ([st_subheader "Humidity Forecast";
           st_pyplot (line_chart (PyList local_times)
                        (PyList (hums ++ [PyNum k]))
                        "Relative Humidity (%)" "blue");
           st_info "ℹ️ Humidity is at **2 m AGL** and displayed in **%**.";
           st_success ("Latest Forecast: " ++ format_f P 0 (to_R k)
                       ++ "% at " ++ py_str P at_)],
          Ok tt).
Proof.
  intros Hs Hj Hv Hp.
  destruct (comprehension_app _ _ _ _ Hl) as [labels [at_ [E [Hat _]]]].
  exists at_. split; [exact Hat|].
  unfold tab_humidity. into_plot Hs Hj Hv.
  assert (Tv : py_truthy (PyList (hums ++ [PyNum k])) = true)
    by (destruct hums; reflexivity).
  unfold plot_time_series.
  replace (py_truthy (PyList (times ++ [last_time]))) with true
    by (destruct times; reflexivity).
  rewrite Tv. cbn [negb orb py_iter lift bind app]. rewrite Hl.
  cbn [lift bind app]. rewrite Hp. cbn [lift bind app emit ret].
  rewrite Tv. cbn [py_index]. rewrite list_index_last.
  cbn [lift bind app py_format_f as_number rbind].
  rewrite E, list_index_last. reflexivity.
Qed.

(** X22: the precipitation tab plots the series in millimetres and prints
    the last sample times 1000, with one decimal, at the last time. *)
Theorem tab_precipitation_with_data (vals_raw : list (option number))
    (m : number) :
  status_code (reply "total_precipitation") = 200%Z ->
  json (reply "total_precipitation") = Ok (PyDict d) ->
  lookup "total_precipitation" h = Some (of_series (vals_raw ++ [Some m])) ->
  ax_plot P (PyList local_times)
    (of_series (map spec_millimetres (vals_raw ++ [Some m]))) = Ok tt ->
  exists at_,
    local_label P last_time = Ok at_
    /\ tab_precipitation P S
       = ([st_subheader "Precipitation Forecast";
           st_pyplot
             (line_chart (PyList local_times)
                (of_series (map spec_millimetres (vals_raw ++ [Some m])))
                "Precipitation (mm)" "green");
           st_info "ℹ️ Precipitation is shown as **total precipitation in millimetres (mm)**.";
           st_success ("Latest Forecast: " ++ format_f P 1 (to_R m * 1000)
                       ++ " mm at " ++ py_str P at_)],
          Ok tt).
Proof.
  intros Hs Hj Hv Hp.
  destruct (comprehension_app _ _ _ _ Hl) as [labels [at_ [E [Hat _]]]].
  exists at_. split; [exact Hat|].
  unfold tab_precipitation. into_plot Hs Hj Hv.
  rewrite vals_mm_of_series. cbn [lift bind app].
  assert (Tv : py_truthy
                 (of_series (map spec_millimetres (vals_raw ++ [Some m])))
               = true) by (destruct vals_raw; reflexivity).
  unfold plot_time_series.
  replace (py_truthy (PyList (times ++ [last_time]))) with true
    by (destruct times; reflexivity).
  rewrite Tv. cbn [negb orb py_iter lift bind app]. rewrite Hl.
  cbn [lift bind app]. rewrite Hp. cbn [lift bind app emit ret].
  rewrite Tv.
  assert (Ei : py_index
                 (of_series (map spec_millimetres (vals_raw ++ [Some m])))
                 (-1) = Ok (PyNum (num_mul_int m 1000))).
  { unfold of_series. rewrite !map_app. cbn [map py_index].
    apply list_index_last. }
  rewrite Ei. cbn [lift bind app py_format_f as_number rbind py_index].
  rewrite to_R_num_mul_int, E, list_index_last. reflexivity.
Qed.

(** X23: a null as the last sample passes the conversion and the chart,
    and then ends the tab with [TypeError] at the line that prints the
    latest forecast: the chart and the note on units are shown, the latest
    forecast is not.  So it is in the temperature, the humidity and the
    precipitation tab alike. *)
Theorem tabs_end_on_last_null :
  (forall temps_raw : list (option number),
      status_code (reply "2m_temperature") = 200%Z ->
      json (reply "2m_temperature") = Ok (PyDict d) ->
      lookup "2m_temperature" h = Some (of_series (temps_raw ++ [None])) ->
      ax_plot P (PyList local_times)
        (of_series (map spec_celsius (temps_raw ++ [None]))) = Ok tt ->
      tab_temperature P S
      = ([st_subheader "Temperature Forecast";
          st_pyplot
            (line_chart (PyList local_times)
               (of_series (map spec_celsius (temps_raw ++ [None])))
               "Temperature (°C)" "red");
          st_info "ℹ️ Temperature is at **2 m AGL** and displayed in **°C**."],
         Raise TypeError))
  /\ (forall hums : list pyval,
      status_code (reply "relative_humidity_2m") = 200%Z ->
      json (reply "relative_humidity_2m") = Ok (PyDict d) ->
      lookup "relative_humidity_2m" h = Some (PyList (hums ++ [PyNone])) ->
      ax_plot P (PyList local_times) (PyList (hums ++ [PyNone])) = Ok tt ->
      tab_humidity P S
      = ([st_subheader "Humidity Forecast";
          st_pyplot (line_chart (PyList local_times)
                       (PyList (hums ++ [PyNone]))
                       "Relative Humidity (%)" "blue");
          st_info "ℹ️ Humidity is at **2 m AGL** and displayed in **%**."],
         Raise TypeError))
  /\ (forall vals_raw : list (option number),
      status_code (reply "total_precipitation") = 200%Z ->
      json (reply "total_precipitation") = Ok (PyDict d) ->
      lookup "total_precipitation" h = Some (of_series (vals_raw ++ [None])) ->
      ax_plot P (PyList local_times)
        (of_series (map spec_millimetres (vals_raw ++ [None]))) = Ok tt ->
      tab_precipitation P S
      = ([st_subheader "Precipitation Forecast";
          st_pyplot
            (line_chart (PyList local_times)
               (of_series (map spec_millimetres (vals_raw ++ [None])))
               "Precipitation (mm)" "green");
          st_info "ℹ️ Precipitation is shown as **total precipitation in millimetres (mm)**."],
         Raise TypeError)).
Proof.
  split; [| split].
  - intros temps_raw Hs Hj Hv Hp.
    unfold tab_temperature. into_plot Hs Hj Hv.
    rewrite temps_c_of_series. cbn [lift bind app].
    assert (Tv : py_truthy (of_series (map spec_celsius (temps_raw ++ [None])))
                 = true) by (destruct temps_raw; reflexivity).
    unfold plot_time_series.
    replace (py_truthy (PyList (times ++ [last_time]))) with true
      by (destruct times; reflexivity).
    rewrite Tv. cbn [negb orb py_iter lift bind app]. rewrite Hl.
    cbn [lift bind app]. rewrite Hp. cbn [lift bind app emit ret].
    rewrite Tv.
    assert (Ei : py_index (of_series (map spec_celsius (temps_raw ++ [None])))
                   (-1) = Ok PyNone).
    { unfold of_series. rewrite !map_app. cbn [map py_index].
      apply list_index_last. }
    rewrite Ei. reflexivity.
  - intros hums Hs Hj Hv Hp.
    unfold tab_humidity. into_plot Hs Hj Hv.
    assert (Tv : py_truthy (PyList (hums ++ [PyNone])) = true)
      by (destruct hums; reflexivity).
    unfold plot_time_series.
    replace (py_truthy (PyList (times ++ [last_time]))) with true
      by (destruct times; reflexivity).
    rewrite Tv. cbn [negb orb py_iter lift bind app]. rewrite Hl.
    cbn [lift bind app]. rewrite Hp. cbn [lift bind app emit ret].
    rewrite Tv. cbn [py_index]. rewrite list_index_last. reflexivity.
  - intros vals_raw Hs Hj Hv Hp.
    unfold tab_precipitation. into_plot Hs Hj Hv.
    rewrite vals_mm_of_series. cbn [lift bind app].
    assert (Tv : py_truthy
                   (of_series (map spec_millimetres (vals_raw ++ [None])))
                 = true) by (destruct vals_raw; reflexivity).
    unfold plot_time_series.
    replace (py_truthy (PyList (times ++ [last_time]))) with true
      by (destruct times; reflexivity).
    rewrite Tv. cbn [negb orb py_iter lift bind app]. rewrite Hl.
    cbn [lift bind app]. rewrite Hp. cbn [lift bind app emit ret].
    rewrite Tv.
    assert (Ei : py_index
                   (of_series (map spec_millimetres (vals_raw ++ [None])))
                   (-1) = Ok PyNone).
    { unfold of_series. rewrite !map_app. cbn [map py_index].
      apply list_index_last. }
    rewrite Ei. reflexivity.
Qed.

End MoreTabsWithData.

Lemma tab_humidity_with_data_witness :
  exists at_,
    local_label fair_machine (PyStr "2025-01-01T01:00:00") = Ok at_
    /\ tab_humidity fair_machine dover
       = ([st_subheader "Humidity Forecast";
           st_pyplot (line_chart
                        (PyList [PyStr "1735689600"; PyStr "1735693200"])
                        (PyList ([PyNum (Float 280)] ++ [PyNum (Float 281.5)]))
                        "Relative Humidity (%)" "blue");
           st_info "ℹ️ Humidity is at **2 m AGL** and displayed in **%**.";
           st_success ("Latest Forecast: " ++ format_f fair_machine 0 281.5
                       ++ "% at " ++ py_str fair_machine at_)],
          Ok tt).
Proof.
  apply (tab_humidity_with_data fair_machine dover
           [("hourly", PyDict [("time", two_hours);
                               ("relative_humidity_2m",
                                PyList [PyNum (Float 280);
                                        PyNum (Float 281.5)])])]
           [("time", two_hours);
            ("relative_humidity_2m",
             PyList [PyNum (Float 280); PyNum (Float 281.5)])]
           [PyStr "2025-01-01T00:00:00"] (PyStr "2025-01-01T01:00:00")
           [PyStr "1735689600"; PyStr "1735693200"]
           eq_refl eq_refl eq_refl
           [PyNum (Float 280)] (Float 281.5));
    reflexivity.
Defined.

Lemma tab_precipitation_with_data_witness :
  exists at_,
    local_label fair_machine (PyStr "2025-01-01T01:00:00") = Ok at_
    /\ tab_precipitation fair_machine dover
       = ([st_subheader "Precipitation Forecast";
           st_pyplot
             (line_chart (PyList [PyStr "1735689600"; PyStr "1735693200"])
                (of_series (map spec_millimetres
                              ([Some (Float 280)] ++ [Some (Float 281.5)])))
                "Precipitation (mm)" "green");
           st_info "ℹ️ Precipitation is shown as **total precipitation in millimetres (mm)**.";
           st_success ("Latest Forecast: "
                       ++ format_f fair_machine 1 (281.5 * 1000)
                       ++ " mm at " ++ py_str fair_machine at_)],
          Ok tt).
Proof.
  apply (tab_precipitation_with_data fair_machine dover
           [("hourly", PyDict [("time", two_hours);
                               ("total_precipitation",
                                PyList [PyNum (Float 280);
                                        PyNum (Float 281.5)])])]
           [("time", two_hours);
            ("total_precipitation",
             PyList [PyNum (Float 280); PyNum (Float 281.5)])]
           [PyStr "2025-01-01T00:00:00"] (PyStr "2025-01-01T01:00:00")
           [PyStr "1735689600"; PyStr "1735693200"]
           eq_refl eq_refl eq_refl
           [Some (Float 280)] (Float 281.5));
    reflexivity.
Defined.

Lemma tabs_end_on_last_null_witness :
  tab_humidity temperature_null_machine dover
  = ([st_subheader "Humidity Forecast";
      st_pyplot (line_chart (PyList [PyStr "1735689600"; PyStr "1735693200"])
                   (PyList ([PyNum (Float 280)] ++ [PyNone]))
                   "Relative Humidity (%)" "blue");
      st_info "ℹ️ Humidity is at **2 m AGL** and displayed in **%**."],
     Raise TypeError).
Proof.
  apply (proj1 (proj2 (tabs_end_on_last_null temperature_null_machine dover
           [("hourly", PyDict [("time", two_hours);
                               ("relative_humidity_2m",
                                PyList [PyNum (Float 280); PyNone])])]
           [("time", two_hours);
            ("relative_humidity_2m", PyList [PyNum (Float 280); PyNone])]
           [PyStr "2025-01-01T00:00:00"] (PyStr "2025-01-01T01:00:00")
           [PyStr "1735689600"; PyStr "1735693200"]
           eq_refl eq_refl eq_refl)) [PyNum (Float 280)]);
    reflexivity.
Defined.

(** ** The reset time of a timestamp with its offset *)


